(** * Artifact resolver / launcher of the GitHub Actions bootstrap

    A shallow embedding of [.github/bootstrap/bootstrap.ts]
    ([invokeWith], [executeRustBinaryAction]), of the earlier single-command
    variant ([run], [execute_rust_binary_action]) and of the action entry
    points that call [invokeWith].

    The TypeScript code is a sequence of awaited calls into Node and the
    [@actions/*] libraries.  Those libraries are not part of the
    repository: they appear here as the fields of a [Runtime] record (what
    each call answers) and as a cache store that [find] reads and
    [cacheFile] writes.  Every call that touches the file system, the
    network, a child process or the action's reported status leaves an
    [Event] in a trace, so that "no download happened" is a statement about
    the trace of a run. *)

From Stdlib Require Import String Ascii List ZArith Lia Bool.
From stdpp Require Import base gmap strings.
Import ListNotations.

Local Open Scope string_scope.
Local Open Scope list_scope.

(** ** JavaScript values that matter here *)

(** A value thrown by [throw] or carried by a rejected promise: either an
    instance of [Error] (with its [name] and [message]) or anything else,
    such as a thrown string. *)
Inductive Thrown : Type :=
| ErrorObj (name message : string)
| NonError (value : string).

(** Synchronous code that may throw. *)
Inductive Result (A : Type) : Type :=
| Ok (a : A)
| Throw (e : Thrown).
Arguments Ok {A} a.
Arguments Throw {A} e.

Definition rbind {A B} (r : Result A) (k : A -> Result B) : Result B :=
  match r with
  | Ok a => k a
  | Throw e => Throw e
  end.

Notation "'let!' x ':=' r 'in' k" := (rbind r (fun x => k))
  (at level 10, x name, r at level 100, k at level 200, only parsing).

(** [new Error(msg)] and [new TypeError(msg)]. *)
Definition new_Error (msg : string) : Thrown := ErrorObj "Error" msg.
Definition new_TypeError (msg : string) : Thrown := ErrorObj "TypeError" msg.

(** ** String helpers used by the source *)

Module Str.

(** [s.replace(/^\//, '')]: drops one leading slash when there is one. *)
Definition strip_leading_slash (s : string) : string :=
  match s with
  | String "/" rest => rest
  | _ => s
  end.

(** [s.replace(/\.git$/, '')]: the pattern is anchored at the end of the
    string, so the only possible match is a final [.git]. *)
Fixpoint strip_git_suffix (s : string) : string :=
  match s with
  | EmptyString => EmptyString
  | String c rest =>
      if String.eqb s ".git" then EmptyString
      else String c (strip_git_suffix rest)
  end.

(** [s] ends with [.git]. *)
Fixpoint ends_with_git (s : string) : bool :=
  match s with
  | EmptyString => false
  | String _ rest => String.eqb s ".git" || ends_with_git rest
  end.

(** JavaScript truthiness of a string: only the empty string is falsy. *)
Definition truthy (s : string) : bool :=
  match s with
  | EmptyString => false
  | String _ _ => true
  end.

(** ASCII part of [String.prototype.toUpperCase]. *)
Definition upper_char (c : ascii) : ascii :=
  let n := nat_of_ascii c in
  if (97 <=? n)%nat && (n <=? 122)%nat then ascii_of_nat (n - 32) else c.

Fixpoint toUpperCase (s : string) : string :=
  match s with
  | EmptyString => EmptyString
  | String c rest => String (upper_char c) (toUpperCase rest)
  end.

(** [s.replace(/ /g, '_')]. *)
Fixpoint spaces_to_underscores (s : string) : string :=
  match s with
  | EmptyString => EmptyString
  | String c rest =>
      String (if Ascii.eqb c " " then "_"%char else c) (spaces_to_underscores rest)
  end.

(** ASCII white space removed by [String.prototype.trim]. *)
Definition is_space (c : ascii) : bool :=
  let n := nat_of_ascii c in
  (n =? 32)%nat || ((9 <=? n)%nat && (n <=? 13)%nat).

Fixpoint trim_start (s : string) : string :=
  match s with
  | EmptyString => EmptyString
  | String c rest => if is_space c then trim_start rest else s
  end.

(** Drops the white space at the end: a character is kept when it is not
    white space or when something is kept after it. *)
Fixpoint trim_end (s : string) : string :=
  match s with
  | EmptyString => EmptyString
  | String c rest =>
      match trim_end rest with
      | EmptyString => if is_space c then EmptyString else String c EmptyString
      | kept => String c kept
      end
  end.

Definition trim (s : string) : string := trim_end (trim_start s).

(** [s.split('\n')]; [cur] is the piece read so far. *)
Fixpoint split_lines_aux (cur : string) (s : string) : list string :=
  match s with
  | EmptyString => [cur]
  | String c rest =>
      if Ascii.eqb c "010" then cur :: split_lines_aux EmptyString rest
      else split_lines_aux (cur +:+ String c EmptyString) rest
  end.

Definition split_lines (s : string) : list string :=
  split_lines_aux EmptyString s.

End Str.

(** ** The manifest, as far as the launcher reads it *)

Record Package : Type := {
  pkg_name : string;
  pkg_repository : string;
  pkg_version : string
}.

Record Bin : Type := { bin_name : string }.

(** The object returned by the TOML parser for [Cargo.toml]. *)
Record Toml : Type := {
  package : Package;
  bin : list Bin
}.

(** ** What a run can do to the outside world *)

Inductive Event : Type :=
| ReadFile (path : string)
| Find (toolName versionSpec : string)
| DownloadTool (url : string)
| ExtractTar (file : string) (dest : option string)
| CacheFile (sourceFile targetFile tool version : string)
| Exec (commandLine : string) (args : list string)
| SetFailed (message : string).

Definition is_download (e : Event) : bool :=
  match e with DownloadTool _ => true | _ => false end.
Definition is_extract (e : Event) : bool :=
  match e with ExtractTar _ _ => true | _ => false end.
Definition is_cache_file (e : Event) : bool :=
  match e with CacheFile _ _ _ _ => true | _ => false end.
Definition is_read_file (e : Event) : bool :=
  match e with ReadFile _ => true | _ => false end.
Definition is_find (e : Event) : bool :=
  match e with Find _ _ => true | _ => false end.
Definition is_exec (e : Event) : bool :=
  match e with Exec _ _ => true | _ => false end.
Definition is_set_failed (e : Event) : bool :=
  match e with SetFailed _ => true | _ => false end.

(** Number of events of one sort in a trace. *)
Definition count (p : Event -> bool) (tr : list Event) : nat :=
  length (List.filter p tr).

(** The tool cache: the directory stored under a (tool, version) key. *)
Abbreviation Cache := (gmap (string * string) string).

(** The libraries and the process the code runs in.  Each field is what
    the call of that name answers; a [Result] field can reject or throw. *)
Record Runtime : Type := {
  process_platform : string;
  process_env : gmap string string;
  dirname : string;
  path_join : string -> string -> string;
  fs_readFileSync : string -> Result string;
  toml_parse : string -> Result Toml;
  url_pathname : string -> option string;
  tc_downloadTool : string -> Result string;
  tc_extractTar : string -> option string -> Result string;
  tc_cacheFile : string -> string -> string -> string -> Result string;
  exec_exec : string -> list string -> Result Z
}.

(** ** Awaited code: a cache store threaded through, a trace, a result *)

Record Outcome (A : Type) : Type := {
  trace : list Event;
  cache : Cache;
  result : Result A
}.
Arguments trace {A} o.
Arguments cache {A} o.
Arguments result {A} o.

Definition Action (A : Type) : Type := Cache -> Outcome A.

Definition ret {A} (a : A) : Action A :=
  fun c => {| trace := []; cache := c; result := Ok a |}.

Definition throw {A} (e : Thrown) : Action A :=
  fun c => {| trace := []; cache := c; result := Throw e |}.

Definition bind {A B} (m : Action A) (k : A -> Action B) : Action B :=
  fun c =>
    let o := m c in
    match result o with
    | Ok a =>
        let o' := k a (cache o) in
        {| trace := trace o ++ trace o'; cache := cache o'; result := result o' |}
    | Throw e => {| trace := trace o; cache := cache o; result := Throw e |}
    end.

Notation "'let*' x ':=' m 'in' k" := (bind m (fun x => k))
  (at level 10, x name, m at level 100, k at level 200, only parsing).

Definition lift {A} (r : Result A) : Action A :=
  fun c => {| trace := []; cache := c; result := r |}.

Definition emit (e : Event) : Action unit :=
  fun c => {| trace := [e]; cache := c; result := Ok tt |}.

(** [p.catch(handler)]: the handler runs on the thrown value and the
    resulting promise is fulfilled. *)
Definition catch (m : Action unit) (handler : Thrown -> Action unit) : Action unit :=
  fun c =>
    let o := m c in
    match result o with
    | Ok _ => o
    | Throw e =>
        let o' := handler e (cache o) in
        {| trace := trace o ++ trace o'; cache := cache o'; result := result o' |}
    end.

(** An outcome with the events [t] placed in front of its trace. *)
Definition prepend {A} (t : list Event) (o : Outcome A) : Outcome A :=
  {| trace := t ++ trace o; cache := cache o; result := result o |}.

(** ** [@actions/core]: workflow inputs and the reported failure *)

(** The accessors of the library, as it documents and implements them:
    an input is the environment variable [INPUT_<NAME>], a required input
    that is empty throws an [Error] naming it, and values are trimmed
    unless asked otherwise.  Strings are byte strings here, so upper-casing
    and trimming act on ASCII. *)
Module Core.

Record InputOptions : Type := {
  required : bool;
  trimWhitespace : bool
}.

(** A call without an options argument. *)
Definition no_options : InputOptions :=
  {| required := false; trimWhitespace := true |}.

(** The argument [{ required: true }]. *)
Definition required_true : InputOptions :=
  {| required := true; trimWhitespace := true |}.

(** The environment variable an input is read from:
    [INPUT_] followed by the name, spaces replaced, in upper case. *)
Definition input_variable (name : string) : string :=
  "INPUT_" +:+ Str.toUpperCase (Str.spaces_to_underscores name).

(** [getInput(name, options)]: an input that is not set reads as the
    empty string; a required input that reads as empty throws. *)
Definition getInput (env : gmap string string)
    (name : string) (options : InputOptions) : Result string :=
  let val := default "" (env !! input_variable name) in
  if required options && negb (Str.truthy val) then
    Throw (new_Error ("Input required and not supplied: " +:+ name))
  else if negb (trimWhitespace options) then Ok val
  else Ok (Str.trim val).

Definition dquote : string := String (ascii_of_nat 34) EmptyString.

Definition getBooleanInput (env : gmap string string)
    (name : string) (options : InputOptions) : Result bool :=
  rbind (getInput env name options) (fun val =>
    if existsb (String.eqb val) ["true"; "True"; "TRUE"] then Ok true
    else if existsb (String.eqb val) ["false"; "False"; "FALSE"] then Ok false
    else Throw (new_TypeError
           ("Input does not meet YAML 1.2 " +:+ dquote +:+ "Core Schema" +:+ dquote
            +:+ " specification: " +:+ name +:+ String "010"
            "Support boolean input list: `true | True | TRUE | false | False | FALSE`"))).

Definition getMultilineInput (env : gmap string string)
    (name : string) (options : InputOptions) : Result (list string) :=
  rbind (getInput env name options) (fun val =>
    let inputs :=
      List.filter (fun x => negb (String.eqb x "")) (Str.split_lines val) in
    if negb (trimWhitespace options) then Ok inputs
    else Ok (List.map Str.trim inputs)).

(** [setFailed(message)]: the action's one reported failure. *)
Definition setFailed (message : string) : Action unit :=
  emit (SetFailed message).

End Core.

(** The bag of accessors handed to the argument builder. *)
Record Inputs : Type := {
  getInput : string -> Core.InputOptions -> Result string;
  getBooleanInput : string -> Core.InputOptions -> Result bool;
  getMultilineInput : string -> Core.InputOptions -> Result (list string)
}.

(** [GetArguments]: from the accessors to the argument list. *)
Definition GetArguments : Type := Inputs -> Result (list string).

(** The accessors of [@actions/core] over the process environment. *)
Definition core_inputs (env : gmap string string) : Inputs :=
  {| getInput := Core.getInput env;
     getBooleanInput := Core.getBooleanInput env;
     getMultilineInput := Core.getMultilineInput env |}.

(** ** Node and [@actions/tool-cache], [@actions/exec] calls *)

(** Each call leaves its event, whether it then succeeds or not.  The tool
    cache is a keyed store: [find] reads it, a successful [cacheFile]
    writes the directory it returns under the key. *)
Section Calls.

Variable rt : Runtime.

Definition join (a b : string) : string := path_join rt a b.

Definition readFileSync (path : string) : Action string :=
  let* _ := emit (ReadFile path) in lift (fs_readFileSync rt path).

Definition tomlParse (text : string) : Action Toml :=
  lift (toml_parse rt text).

(** [find(toolName, versionSpec)]: the cached directory, or the empty
    string when the key has no entry. *)
Definition find (toolName versionSpec : string) : Action string :=
  fun c =>
    {| trace := [Find toolName versionSpec];
       cache := c;
       result := Ok (default "" (c !! (toolName, versionSpec))) |}.

Definition downloadTool (url : string) : Action string :=
  let* _ := emit (DownloadTool url) in lift (tc_downloadTool rt url).

Definition extractTar (file : string) (dest : option string) : Action string :=
  let* _ := emit (ExtractTar file dest) in lift (tc_extractTar rt file dest).

(** [cacheFile(sourceFile, targetFile, tool, version)]: on success the
    returned directory is what the cache holds for the key from then on. *)
Definition cacheFile (sourceFile targetFile tool version : string) : Action string :=
  fun c =>
    match tc_cacheFile rt sourceFile targetFile tool version with
    | Ok dir =>
        {| trace := [CacheFile sourceFile targetFile tool version];
           cache := <[(tool, version) := dir]> c;
           result := Ok dir |}
    | Throw e =>
        {| trace := [CacheFile sourceFile targetFile tool version];
           cache := c;
           result := Throw e |}
    end.

Definition exec (commandLine : string) (args : list string) : Action Z :=
  let* _ := emit (Exec commandLine args) in lift (exec_exec rt commandLine args).

End Calls.

(** ** Expressions shared by both launchers *)

(** The guard [platform !== 'win32' && platform !== 'darwin' &&
    platform !== 'linux']. *)
Definition unsupported (platform : string) : bool :=
  negb (String.eqb platform "win32") && negb (String.eqb platform "darwin")
  && negb (String.eqb platform "linux").

(** [platform === 'win32' ? `${name}.exe` : name]. *)
Definition binaryName (platform name : string) : string :=
  if String.eqb platform "win32" then name +:+ ".exe" else name.

(** [urlParse(repository).pathname.replace(/^\//, '').replace(/\.git$/, '')];
    a [null] pathname makes the first [replace] throw. *)
Definition githubOrgAndName (rt : Runtime) (repository : string) : Result string :=
  match url_pathname rt repository with
  | Some pathname => Ok (Str.strip_git_suffix (Str.strip_leading_slash pathname))
  | None => Throw (new_TypeError "Cannot read properties of null (reading 'replace')")
  end.

(** The template literal of the release asset. *)
Definition releaseUrl (githubOrgAndName version name platform : string) : string :=
  "https://github.com/" +:+ githubOrgAndName +:+ "/releases/download/v" +:+ version
  +:+ "/" +:+ name +:+ "-v" +:+ version +:+ "-" +:+ platform +:+ "-x64.tar.gz".

(** ** [.github/bootstrap/bootstrap.ts] *)

Module Bootstrap.
Section WithRuntime.

Variable rt : Runtime.

Definition executeRustBinaryAction (getArgs : GetArguments) : Action unit :=
  let platform := process_platform rt in
  let env := process_env rt in
  if unsupported platform then
    throw (new_Error ("Unsupported platform: " +:+ platform))
  else
    let* text := readFileSync rt (join rt (dirname rt) "../../Cargo.toml") in
    let* toml := tomlParse rt text in
    let tempDirectory := env !! "RUNNER_TEMP" in
    let repository := pkg_repository (package toml) in
    let version := pkg_version (package toml) in
    let* bin0 :=
      lift (match bin toml with
            | b :: _ => Ok b
            | [] => Throw (new_TypeError
                "Cannot destructure property 'name' of 'toml.bin[0]' as it is undefined.")
            end) in
    let name := bin_name bin0 in
    let binaryName := binaryName platform name in
    let* githubOrgAndName := lift (githubOrgAndName rt repository) in
    let releaseUrl := releaseUrl githubOrgAndName version name platform in
    let* found := find githubOrgAndName version in
    let* cachedPath :=
      (if negb (Str.truthy found) then
         let* downloadPath := downloadTool rt releaseUrl in
         let* extractPath := extractTar rt downloadPath tempDirectory in
         let extractedFile := join rt extractPath binaryName in
         cacheFile rt extractedFile binaryName githubOrgAndName version
       else ret found) in
    let rustBinary := join rt cachedPath name in
    let* args := lift (getArgs (core_inputs env)) in
    let* _ := exec rt rustBinary args in
    ret tt.

(** The handler of [.catch]: only an [Error] instance is reported. *)
Definition on_rejected (e : Thrown) : Action unit :=
  match e with
  | ErrorObj _ message => Core.setFailed message
  | NonError _ => ret tt
  end.

Definition invokeWith (getArgs : GetArguments) : Action unit :=
  catch (executeRustBinaryAction getArgs) on_rejected.

End WithRuntime.
End Bootstrap.

(** ** The single-command launcher ([run], [execute_rust_binary_action]) *)

Module Command.
Section WithRuntime.

Variable rt : Runtime.

Definition execute_rust_binary_action (rustCommand : string) : Action unit :=
  let platform := process_platform rt in
  let env := process_env rt in
  if unsupported platform then
    throw (new_Error ("Unsupported platform: " +:+ platform))
  else
    let* text := readFileSync rt (join rt (dirname rt) "../Cargo.toml") in
    let* toml := tomlParse rt text in
    let name := pkg_name (package toml) in
    let repository := pkg_repository (package toml) in
    let version := pkg_version (package toml) in
    let* githubOrgAndName := lift (githubOrgAndName rt repository) in
    let* found := find githubOrgAndName version in
    let* cachedPath :=
      (if negb (Str.truthy found) then
         let releaseUrl := releaseUrl githubOrgAndName version name platform in
         let* downloadPath := downloadTool rt releaseUrl in
         let tempDirectory := env !! "RUNNER_TEMP" in
         let* extractPath := extractTar rt downloadPath tempDirectory in
         let binaryName := binaryName platform name in
         let extractedFile := join rt extractPath binaryName in
         cacheFile rt extractedFile binaryName githubOrgAndName version
       else ret found) in
    let rustBinary := join rt cachedPath name in
    let* _ := exec rt rustBinary [rustCommand] in
    ret tt.

Definition on_rejected (e : Thrown) : Action unit :=
  match e with
  | ErrorObj _ message => Core.setFailed message
  | NonError _ => ret tt
  end.

Definition run (rustCommand : string) : Action unit :=
  catch (execute_rust_binary_action rustCommand) on_rejected.

End WithRuntime.
End Command.

(** ** The entry points that call [invokeWith] *)

Module EntryPoints.

(** [update-builder], with a [path] input. *)
Definition update_builder_path : GetArguments := fun i =>
  let! path := getInput i "path" Core.required_true in
  let! buildpack_id := getInput i "buildpack-id" Core.required_true in
  let! buildpack_version := getInput i "buildpack-version" Core.required_true in
  let! buildpack_uri := getInput i "buildpack-uri" Core.required_true in
  let! builders := getInput i "builders" Core.required_true in
  Ok ["update-builder";
      "--path"; path;
      "--buildpack-id"; buildpack_id;
      "--buildpack-version"; buildpack_version;
      "--buildpack-uri"; buildpack_uri;
      "--builders"; builders].

(** [update-builder], inputs named with hyphens. *)
Definition update_builder_hyphen : GetArguments := fun i =>
  let! buildpack_id := getInput i "buildpack-id" Core.required_true in
  let! buildpack_version := getInput i "buildpack-version" Core.required_true in
  let! buildpack_uri := getInput i "buildpack-uri" Core.required_true in
  let! builders := getInput i "builders" Core.required_true in
  Ok ["update-builder";
      "--buildpack-id"; buildpack_id;
      "--buildpack-version"; buildpack_version;
      "--buildpack-uri"; buildpack_uri;
      "--builders"; builders].

(** [.github/actions/update-builder/index.js]. *)
Definition update_builder : GetArguments := fun i =>
  let! buildpack_id := getInput i "buildpack_id" Core.required_true in
  let! buildpack_version := getInput i "buildpack_version" Core.required_true in
  let! buildpack_uri := getInput i "buildpack_uri" Core.required_true in
  let! builders := getInput i "builders" Core.required_true in
  Ok ["update-builder";
      "--buildpack-id"; buildpack_id;
      "--buildpack-version"; buildpack_version;
      "--buildpack-uri"; buildpack_uri;
      "--builders"; builders].

(** [prepare]. *)
Definition prepare : GetArguments := fun i =>
  let! bump := getInput i "bump" Core.required_true in
  let! project_dir := getInput i "project_dir" Core.no_options in
  Ok ["prepare"; "--bump"; bump; project_dir].

(** [prepare-release]. *)
Definition prepare_release : GetArguments := fun i =>
  let! bump := getInput i "bump" Core.required_true in
  let! repository_url := getInput i "repository-url" Core.no_options in
  Ok ["prepare-release"; "--bump"; bump; "--repository-url"; repository_url].

End EntryPoints.

(** ** What the statements below talk about *)

(** The two launchers side by side, so that a statement can speak of both:
    the one that takes an argument builder ([bootstrap.ts]) and the one
    that takes a single command. *)
Inductive Launcher : Type :=
| ViaArguments (getArgs : GetArguments)
| ViaCommand (rustCommand : string).

(** The async function of a launcher. *)
Definition action (rt : Runtime) (l : Launcher) : Action unit :=
  match l with
  | ViaArguments getArgs => Bootstrap.executeRustBinaryAction rt getArgs
  | ViaCommand rustCommand => Command.execute_rust_binary_action rt rustCommand
  end.

(** Its public entry point. *)
Definition entry (rt : Runtime) (l : Launcher) : Action unit :=
  match l with
  | ViaArguments getArgs => Bootstrap.invokeWith rt getArgs
  | ViaCommand rustCommand => Command.run rt rustCommand
  end.

(** The manifest each launcher reads. *)
Definition manifest_path (rt : Runtime) (l : Launcher) : string :=
  match l with
  | ViaArguments _ => join rt (dirname rt) "../../Cargo.toml"
  | ViaCommand _ => join rt (dirname rt) "../Cargo.toml"
  end.

(** The base binary name each launcher takes from the manifest: the first
    declared binary, or the package name. *)
Definition base_name (l : Launcher) (toml : Toml) : option string :=
  match l with
  | ViaArguments _ => bin_name <$> head (bin toml)
  | ViaCommand _ => Some (pkg_name (package toml))
  end.

(** The events of the last steps, from cached directory [dir]: building
    the arguments and spawning the binary. *)
Definition launch (rt : Runtime) (l : Launcher) (dir name : string) : list Event :=
  match l with
  | ViaArguments getArgs =>
      match getArgs (core_inputs (process_env rt)) with
      | Ok args => [Exec (join rt dir name) args]
      | Throw _ => []
      end
  | ViaCommand rustCommand => [Exec (join rt dir name) [rustCommand]]
  end.

(** How those last steps end: the argument builder may throw, the spawn
    may reject. *)
Definition launch_result (rt : Runtime) (l : Launcher) (dir name : string) : Result unit :=
  match l with
  | ViaArguments getArgs =>
      let! args := getArgs (core_inputs (process_env rt)) in
      let! _ := exec_exec rt (join rt dir name) args in
      Ok tt
  | ViaCommand rustCommand =>
      let! _ := exec_exec rt (join rt dir name) [rustCommand] in
      Ok tt
  end.

(** Steps 1 to 4 go through: the platform is supported, the manifest is
    read and parsed into [toml], it names the binary [name], and the
    repository URL yields the identifier [org]. *)
Record prepared (rt : Runtime) (l : Launcher) (toml : Toml) (org name : string)
  : Prop := {
  prepared_platform : unsupported (process_platform rt) = false;
  prepared_manifest : exists text,
      fs_readFileSync rt (manifest_path rt l) = Ok text /\ toml_parse rt text = Ok toml;
  prepared_name : base_name l toml = Some name;
  prepared_org : githubOrgAndName rt (pkg_repository (package toml)) = Ok org
}.

(** The cache has no usable entry for the key: [find] answers a falsy
    string. *)
Definition cache_miss (c : Cache) (org version : string) : Prop :=
  Str.truthy (default "" (c !! (org, version))) = false.

(** The cache holds directory [dir] for the key. *)
Definition cache_hit (c : Cache) (org version dir : string) : Prop :=
  c !! (org, version) = Some dir /\ Str.truthy dir = true.

(** On a miss, the download answers [downloadPath], the extraction
    [extractPath], and registering the platform's file answers [dir]. *)
Definition fetched (rt : Runtime) (org version name downloadPath extractPath dir : string)
  : Prop :=
  let file := binaryName (process_platform rt) name in
  tc_downloadTool rt (releaseUrl org version name (process_platform rt)) = Ok downloadPath
  /\ tc_extractTar rt downloadPath (process_env rt !! "RUNNER_TEMP") = Ok extractPath
  /\ tc_cacheFile rt (join rt extractPath file) file org version = Ok dir.

(** Steps 1 to 8 go through and end with cached directory [dir]. *)
Definition resolved (rt : Runtime) (l : Launcher) (c : Cache) (toml : Toml)
    (org name dir : string) : Prop :=
  prepared rt l toml org name
  /\ (cache_hit c org (pkg_version (package toml)) dir
      \/ (cache_miss c org (pkg_version (package toml))
          /\ exists downloadPath extractPath,
               fetched rt org (pkg_version (package toml)) name downloadPath extractPath dir)).

(** An input is absent when its variable is not set or is set to the empty
    string: [getInput] does not tell the two apart. *)
Definition absent (env : gmap string string) (name : string) : Prop :=
  Str.truthy (default "" (env !! Core.input_variable name)) = false.

(** The first absent input of a list of names. *)
Fixpoint first_absent (env : gmap string string) (names : list string) : option string :=
  match names with
  | [] => None
  | n :: rest =>
      if Str.truthy (default "" (env !! Core.input_variable n)) then first_absent env rest
      else Some n
  end.

(** The entry points of the repository, each with the inputs it reads with
    [{ required: true }], in the order of the calls. *)
Definition entry_points : list (GetArguments * list string) :=
  [ (EntryPoints.update_builder_path,
      ["path"; "buildpack-id"; "buildpack-version"; "buildpack-uri"; "builders"]);
    (EntryPoints.update_builder_hyphen,
      ["buildpack-id"; "buildpack-version"; "buildpack-uri"; "builders"]);
    (EntryPoints.update_builder,
      ["buildpack_id"; "buildpack_version"; "buildpack_uri"; "builders"]);
    (EntryPoints.prepare, ["bump"]);
    (EntryPoints.prepare_release, ["bump"]) ].

(** ** A runner to evaluate the launchers on *)

Module Sample.

Fixpoint from_first_slash (s : string) : string :=
  match s with
  | EmptyString => EmptyString
  | String c rest => if Ascii.eqb c "/" then s else from_first_slash rest
  end.

Fixpoint up_to_query (s : string) : string :=
  match s with
  | EmptyString => EmptyString
  | String c rest =>
      if Ascii.eqb c "?" || Ascii.eqb c "#" then EmptyString
      else String c (up_to_query rest)
  end.

(** The path of an [https://host/path?query#hash] URL. *)
Definition pathname (url : string) : option string :=
  if String.prefix "https://" url then
    Some (up_to_query (from_first_slash (String.substring 8 (String.length url - 8) url)))
  else None.

Definition manifest : Toml :=
  {| package := {| pkg_name := "mycli";
                   pkg_repository := "https://github.com/acme/mycli.git";
                   pkg_version := "1.2.3" |};
     bin := [ {| bin_name := "mycli" |} ] |}.

(** A runner on [platform] with environment [env], where every library
    call succeeds unless [download] or [spawn] say otherwise. *)
Definition runner (platform : string) (env : gmap string string)
    (download : string -> Result string) (spawn : Result Z) : Runtime :=
  {| process_platform := platform;
     process_env := env;
     dirname := "/work/.github/bootstrap";
     path_join := fun a b => a +:+ "/" +:+ b;
     fs_readFileSync := fun _ => Ok "[package]";
     toml_parse := fun _ => Ok manifest;
     url_pathname := pathname;
     tc_downloadTool := download;
     tc_extractTar := fun _ _ => Ok "/tmp/extract";
     tc_cacheFile := fun _ _ tool version =>
                       Ok ("/toolcache/" +:+ tool +:+ "/" +:+ version +:+ "/x64");
     exec_exec := fun _ _ => spawn |}.

Definition download_ok (url : string) : Result string := Ok "/tmp/download".

(** The workflow supplies [bump] and nothing else. *)
Definition inputs : gmap string string := {[ "INPUT_BUMP" := "minor" ]}.

Definition linux : Runtime := runner "linux" inputs download_ok (Ok 0%Z).
Definition windows : Runtime := runner "win32" inputs download_ok (Ok 0%Z).

(** A cache already holding the tool. *)
Definition warm : Cache :=
  {[ ("acme/mycli", "1.2.3") := "/toolcache/acme/mycli/1.2.3/x64" ]}.

End Sample.

(** ** More vocabulary: stages of a run, input values, faulty runners *)

(** The place of an event in the launcher's sequence of calls. *)
Definition stage (e : Event) : nat :=
  match e with
  | ReadFile _ => 0
  | Find _ _ => 1
  | DownloadTool _ => 2
  | ExtractTar _ _ => 3
  | CacheFile _ _ _ _ => 4
  | Exec _ _ => 5
  | SetFailed _ => 6
  end.

(** The sequences of stages a launcher can go through: it stops at the
    first failing call; the three fetch calls come between the lookup and
    the spawn, or not at all. *)
Definition shapes : list (list nat) :=
  [ []; [0]; [0; 1]; [0; 1; 5];
    [0; 1; 2]; [0; 1; 2; 3]; [0; 1; 2; 3; 4]; [0; 1; 2; 3; 4; 5] ].

(** What [getInput(name)] returns for an input that passes the required
    check: the variable's value, trimmed, or the empty string when unset. *)
Definition input_value (env : gmap string string) (name : string) : string :=
  Str.trim (default "" (env !! Core.input_variable name)).

(** [s] starts with a slash. *)
Definition starts_with_slash (s : string) : bool :=
  match s with
  | String "/" _ => true
  | _ => false
  end.

(** The cache after [n] invocations of an entry point, one after the
    other. *)
Fixpoint cache_after (rt : Runtime) (l : Launcher) (n : nat) (c : Cache) : Cache :=
  match n with
  | 0 => c
  | S n => cache_after rt l n (cache (entry rt l c))
  end.

(** What the entry point reports for the way the last steps end. *)
Definition report (r : Result unit) : list Event :=
  match r with
  | Throw (ErrorObj _ message) => [SetFailed message]
  | _ => []
  end.

Module Faulty.

(** An HTTP failure of the download. *)
Definition not_found : Thrown := ErrorObj "HTTPError" "Unexpected HTTP response: 404".

(** The sample runner with chosen answers for the extraction and the
    registration. *)
Definition runner (platform : string)
    (extract : Result string) (register : Result string) : Runtime :=
  {| process_platform := platform;
     process_env := Sample.inputs;
     dirname := "/work/.github/bootstrap";
     path_join := fun a b => a +:+ "/" +:+ b;
     fs_readFileSync := fun _ => Ok "[package]";
     toml_parse := fun _ => Ok Sample.manifest;
     url_pathname := Sample.pathname;
     tc_downloadTool := Sample.download_ok;
     tc_extractTar := fun _ _ => extract;
     tc_cacheFile := fun _ _ _ _ => register;
     exec_exec := fun _ _ => Ok 0%Z |}.

(** A manifest that declares no binary. *)
Definition no_binary : Toml :=
  {| package := package Sample.manifest; bin := [] |}.

(** The sample runner reading that manifest. *)
Definition without_binary : Runtime :=
  {| process_platform := "linux";
     process_env := Sample.inputs;
     dirname := "/work/.github/bootstrap";
     path_join := fun a b => a +:+ "/" +:+ b;
     fs_readFileSync := fun _ => Ok "[package]";
     toml_parse := fun _ => Ok no_binary;
     url_pathname := Sample.pathname;
     tc_downloadTool := Sample.download_ok;
     tc_extractTar := fun _ _ => Ok "/tmp/extract";
     tc_cacheFile := fun _ _ tool version =>
                       Ok ("/toolcache/" +:+ tool +:+ "/" +:+ version +:+ "/x64");
     exec_exec := fun _ _ => Ok 0%Z |}.

(** The manifest is not there. *)
Definition no_such_file : Thrown :=
  ErrorObj "Error" "ENOENT: no such file or directory, open 'Cargo.toml'".

(** The sample runner without its manifest. *)
Definition unreadable : Runtime :=
  {| process_platform := "darwin";
     process_env := Sample.inputs;
     dirname := "/work/.github/bootstrap";
     path_join := fun a b => a +:+ "/" +:+ b;
     fs_readFileSync := fun _ => Throw no_such_file;
     toml_parse := fun _ => Ok Sample.manifest;
     url_pathname := Sample.pathname;
     tc_downloadTool := Sample.download_ok;
     tc_extractTar := fun _ _ => Ok "/tmp/extract";
     tc_cacheFile := fun _ _ tool version =>
                       Ok ("/toolcache/" +:+ tool +:+ "/" +:+ version +:+ "/x64");
     exec_exec := fun _ _ => Ok 0%Z |}.

End Faulty.

(** * Properties *)

(** ** Strings *)

Section StringFacts.

Lemma append_cons (c : ascii) (s t : string) :
  String c s +:+ t = String c (s +:+ t).
Proof. reflexivity. Qed.

Lemma append_nil_l (t : string) : "" +:+ t = t.
Proof. reflexivity. Qed.

Lemma append_assoc (s t u : string) : (s +:+ t) +:+ u = s +:+ t +:+ u.
Proof.
  induction s as [|c s IH]; [reflexivity|].
  rewrite !append_cons. now rewrite IH.
Qed.

Lemma length_append (s t : string) :
  String.length (s +:+ t) = String.length s + String.length t.
Proof.
  induction s as [|c s IH]; [reflexivity|].
  rewrite append_cons. simpl. now rewrite IH.
Qed.

(** A string with something in front of [.git] is not [.git]. *)
Lemma longer_than_git (c : ascii) (s : string) :
  String.eqb (String c (s +:+ ".git")) ".git" = false.
Proof.
  apply String.eqb_neq. intros H.
  apply (f_equal String.length) in H.
  simpl in H. rewrite length_append in H. simpl in H. lia.
Qed.

Lemma strip_git_suffix_app (s : string) :
  Str.strip_git_suffix (s +:+ ".git") = s.
Proof.
  induction s as [|c s IH]; [reflexivity|].
  rewrite append_cons.
  change (Str.strip_git_suffix (String c (s +:+ ".git")))
    with (if String.eqb (String c (s +:+ ".git")) ".git" then EmptyString
          else String c (Str.strip_git_suffix (s +:+ ".git"))).
  now rewrite longer_than_git, IH.
Qed.

Lemma strip_git_suffix_none (s : string) :
  Str.ends_with_git s = false -> Str.strip_git_suffix s = s.
Proof.
  induction s as [|c s IH]; [reflexivity|].
  intros H.
  change (Str.ends_with_git (String c s))
    with (String.eqb (String c s) ".git" || Str.ends_with_git s) in H.
  apply orb_false_iff in H as [Hne Hrest].
  change (Str.strip_git_suffix (String c s))
    with (if String.eqb (String c s) ".git" then EmptyString
          else String c (Str.strip_git_suffix s)).
  now rewrite Hne, IH.
Qed.

(** A string holding a slash is not [.git]. *)
Lemma slash_not_git (a b : string) :
  String.eqb (a +:+ String "/" b) ".git" = false.
Proof.
  apply String.eqb_neq.
  destruct a as [|c1 [|c2 [|c3 [|c4 [|c5 a]]]]]; cbv [String.append]; congruence.
Qed.

(** Whether [org/repo] ends with [.git] is decided by [/repo] alone. *)
Lemma ends_with_git_after_slash (org repo : string) :
  Str.ends_with_git (org +:+ String "/" repo) = Str.ends_with_git (String "/" repo).
Proof.
  induction org as [|c org IH]; [reflexivity|].
  rewrite append_cons.
  change (Str.ends_with_git (String c (org +:+ String "/" repo)))
    with (String.eqb (String c (org +:+ String "/" repo)) ".git"
          || Str.ends_with_git (org +:+ String "/" repo)).
  rewrite <- append_cons, slash_not_git. exact IH.
Qed.

Lemma ends_with_git_slash (repo : string) :
  Str.ends_with_git (String "/" repo) = Str.ends_with_git repo.
Proof.
  change (Str.ends_with_git (String "/" repo))
    with (String.eqb (String "/" repo) ".git" || Str.ends_with_git repo).
  now rewrite (slash_not_git "" repo : String.eqb (String "/" repo) ".git" = false).
Qed.

Lemma append_exe_differs (name : string) : name +:+ ".exe" <> name.
Proof.
  intros H. apply (f_equal String.length) in H.
  rewrite length_append in H. simpl in H. lia.
Qed.

End StringFacts.

(** ** Steps 3 and 4: identifier, file name, release URL *)

(** C7: the platform-specific file name is the base name followed by
    [.exe] exactly when the platform is [win32]; on [darwin] and [linux],
    as on any platform other than [win32], it is the bare name. *)
Theorem binaryName_exe_iff_windows (platform name : string) :
  (binaryName platform name = name +:+ ".exe" <-> platform = "win32")
  /\ binaryName "win32" name = name +:+ ".exe"
  /\ binaryName "darwin" name = name
  /\ binaryName "linux" name = name
  /\ (platform <> "win32" -> binaryName platform name = name).
Proof.
  unfold binaryName. repeat split.
  - destruct (String.eqb_spec platform "win32") as [->|Hne]; [reflexivity|].
    intros H. symmetry in H. now apply append_exe_differs in H.
  - now intros ->.
  - intros Hne. now apply String.eqb_neq in Hne as ->.
Qed.

(** C8: for a repository URL [https://host/org/repo.git], and for
    [https://host/org/repo] when [repo] does not itself end with [.git],
    whose path the URL parser reports as the part after the host, the
    derived identifier is [org/repo]: no leading slash, no [.git] suffix. *)
Theorem githubOrgAndName_org_repo (rt : Runtime) (host org repo suffix : string)
    (Hsuffix : suffix = ".git" \/ (suffix = "" /\ Str.ends_with_git repo = false))
    (Hpath : url_pathname rt ("https://" +:+ host +:+ "/" +:+ org +:+ "/" +:+ repo +:+ suffix)
             = Some ("/" +:+ org +:+ "/" +:+ repo +:+ suffix)) :
  githubOrgAndName rt ("https://" +:+ host +:+ "/" +:+ org +:+ "/" +:+ repo +:+ suffix)
  = Ok (org +:+ "/" +:+ repo).
Proof.
  unfold githubOrgAndName. rewrite Hpath. f_equal.
  change ("/" +:+ org +:+ "/" +:+ repo +:+ suffix)
    with (String "/" (org +:+ "/" +:+ repo +:+ suffix)).
  cbn [Str.strip_leading_slash].
  destruct Hsuffix as [-> | [-> Hrepo]].
  - rewrite <- (append_assoc "/" repo ".git"), <- (append_assoc org _ ".git").
    apply strip_git_suffix_app.
  - assert (repo +:+ "" = repo) as ->.
    { clear. induction repo as [|c r IH]; [reflexivity|].
      rewrite append_cons. now rewrite IH. }
    apply strip_git_suffix_none.
    change ("/" +:+ repo) with (String "/" repo).
    now rewrite ends_with_git_after_slash, ends_with_git_slash.
Qed.

Lemma githubOrgAndName_org_repo_witness :
  githubOrgAndName Sample.linux "https://github.com/acme/mycli.git" = Ok "acme/mycli".
Proof.
  apply (githubOrgAndName_org_repo Sample.linux "github.com" "acme" "mycli" ".git").
  - left. reflexivity.
  - reflexivity.
Defined.

(** The two scenarios of the specification: one manifest, on Linux and on
    Windows. *)
Example scenario_linux :
  githubOrgAndName Sample.linux (pkg_repository (package Sample.manifest)) = Ok "acme/mycli"
  /\ releaseUrl "acme/mycli" "1.2.3" "mycli" "linux"
     = "https://github.com/acme/mycli/releases/download/v1.2.3/mycli-v1.2.3-linux-x64.tar.gz"
  /\ binaryName "linux" "mycli" = "mycli".
Proof. repeat split. Qed.

Example scenario_win32 :
  releaseUrl "acme/mycli" "1.2.3" "mycli" "win32"
  = "https://github.com/acme/mycli/releases/download/v1.2.3/mycli-v1.2.3-win32-x64.tar.gz"
  /\ binaryName "win32" "mycli" = "mycli.exe".
Proof. repeat split. Qed.

(** ** How a sequence of awaited calls runs *)

Section RunEquations.

Context {A B : Type} (k : A -> Action B) (c : Cache).

Lemma bind_lift (r : Result A) :
  bind (lift r) k c =
  match r with
  | Ok a => k a c
  | Throw e => {| trace := []; cache := c; result := Throw e |}
  end.
Proof.
  unfold bind, lift. destruct r as [a|e]; cbn; [now destruct (k a c)|reflexivity].
Qed.

Lemma bind_ret (a : A) : bind (ret a) k c = k a c.
Proof. unfold bind, ret. cbn. now destruct (k a c). Qed.

End RunEquations.

Section CallEquations.

Context {B : Type} (rt : Runtime) (c : Cache).

Lemma bind_tomlParse (k : Toml -> Action B) (text : string) :
  bind (tomlParse rt text) k c =
  match toml_parse rt text with
  | Ok a => k a c
  | Throw e => {| trace := []; cache := c; result := Throw e |}
  end.
Proof. apply bind_lift. Qed.

Lemma bind_readFileSync (k : string -> Action B) (path : string) :
  bind (readFileSync rt path) k c =
  match fs_readFileSync rt path with
  | Ok a => prepend [ReadFile path] (k a c)
  | Throw e => {| trace := [ReadFile path]; cache := c; result := Throw e |}
  end.
Proof.
  unfold readFileSync, bind, emit, lift, prepend. cbn.
  now destruct (fs_readFileSync rt path).
Qed.

Lemma bind_downloadTool (k : string -> Action B) (url : string) :
  bind (downloadTool rt url) k c =
  match tc_downloadTool rt url with
  | Ok a => prepend [DownloadTool url] (k a c)
  | Throw e => {| trace := [DownloadTool url]; cache := c; result := Throw e |}
  end.
Proof.
  unfold downloadTool, bind, emit, lift, prepend. cbn.
  now destruct (tc_downloadTool rt url).
Qed.

Lemma bind_extractTar (k : string -> Action B) (file : string) (dest : option string) :
  bind (extractTar rt file dest) k c =
  match tc_extractTar rt file dest with
  | Ok a => prepend [ExtractTar file dest] (k a c)
  | Throw e => {| trace := [ExtractTar file dest]; cache := c; result := Throw e |}
  end.
Proof.
  unfold extractTar, bind, emit, lift, prepend. cbn.
  now destruct (tc_extractTar rt file dest).
Qed.

Lemma bind_exec (k : Z -> Action B) (cmd : string) (args : list string) :
  bind (exec rt cmd args) k c =
  match exec_exec rt cmd args with
  | Ok a => prepend [Exec cmd args] (k a c)
  | Throw e => {| trace := [Exec cmd args]; cache := c; result := Throw e |}
  end.
Proof.
  unfold exec, bind, emit, lift, prepend. cbn.
  now destruct (exec_exec rt cmd args).
Qed.

Lemma bind_find (k : string -> Action B) (tool version : string) :
  bind (find tool version) k c =
  prepend [Find tool version] (k (default "" (c !! (tool, version))) c).
Proof. reflexivity. Qed.

Lemma bind_cacheFile (k : string -> Action B) (src target tool version : string) :
  bind (cacheFile rt src target tool version) k c =
  match tc_cacheFile rt src target tool version with
  | Ok dir => prepend [CacheFile src target tool version]
                (k dir (<[(tool, version) := dir]> c))
  | Throw e => {| trace := [CacheFile src target tool version]; cache := c;
                  result := Throw e |}
  end.
Proof.
  unfold cacheFile, bind, prepend.
  now destruct (tc_cacheFile rt src target tool version).
Qed.

End CallEquations.

(** One awaited call, seen from outside. *)
Ltac run_step :=
  first [ rewrite bind_readFileSync | rewrite bind_tomlParse | rewrite bind_find
        | rewrite bind_downloadTool | rewrite bind_extractTar | rewrite bind_cacheFile
        | rewrite bind_exec | rewrite bind_ret | rewrite bind_lift ].

(** Evaluates the projections of an outcome built by [prepend]. *)
Ltac outcome :=
  cbn [prepend ret throw trace cache result app count List.filter length
       is_download is_extract is_cache_file is_read_file is_find is_exec is_set_failed].

(** The launcher up to the cache lookup, once steps 1 to 4 are known to
    succeed: what is left is the lookup's continuation. *)
Ltac to_lookup Hprep :=
  let Hplat := fresh "Hplat" in
  let text := fresh "text" in
  let Hread := fresh "Hread" in
  let Hparse := fresh "Hparse" in
  let Hname := fresh "Hname" in
  let Horg := fresh "Horg" in
  destruct Hprep as [Hplat [text [Hread Hparse]] Hname Horg];
  cbn [manifest_path base_name] in Hread, Hname;
  cbn [action]; unfold Bootstrap.executeRustBinaryAction, Command.execute_rust_binary_action;
  rewrite Hplat, bind_readFileSync, Hread, bind_tomlParse, Hparse;
  try (match type of Hname with
       | context [bin ?t] => destruct (bin t) as [|[?] ?]; [discriminate Hname|]
       end;
       rewrite bind_lift);
  cbn [fmap option_fmap option_map head bin_name] in Hname;
  injection Hname as Hname; try subst;
  rewrite bind_lift, Horg, bind_find.

(** ** Step 1: the platform guard *)

(** C6: on a platform other than these three, either launcher rejects at
    once with [Unsupported platform: ...] naming the platform, having left
    no event at all: no manifest read, no cache lookup, no download, no
    spawn; its entry point reports that one failure and the cache is as
    before. *)
Theorem unsupported_platform_fails_first (rt : Runtime) (l : Launcher) (c : Cache)
    (Hwin : process_platform rt <> "win32")
    (Hmac : process_platform rt <> "darwin")
    (Hlinux : process_platform rt <> "linux") :
  action rt l c =
    {| trace := []; cache := c;
       result := Throw (new_Error ("Unsupported platform: " +:+ process_platform rt)) |}
  /\ entry rt l c =
    {| trace := [SetFailed ("Unsupported platform: " +:+ process_platform rt)];
       cache := c; result := Ok tt |}.
Proof.
  assert (unsupported (process_platform rt) = true) as Hun.
  { unfold unsupported.
    apply String.eqb_neq in Hwin, Hmac, Hlinux. now rewrite Hwin, Hmac, Hlinux. }
  destruct l as [getArgs|rustCommand]; cbn [action entry];
    unfold Bootstrap.invokeWith, Command.run, catch,
      Bootstrap.executeRustBinaryAction, Command.execute_rust_binary_action;
    rewrite Hun; split; reflexivity.
Qed.

Lemma unsupported_platform_fails_first_witness :
  trace (Bootstrap.invokeWith (Sample.runner "aix" ∅ Sample.download_ok (Ok 0%Z))
           EntryPoints.prepare ∅)
  = [SetFailed "Unsupported platform: aix"].
Proof.
  pose proof (unsupported_platform_fails_first
                (Sample.runner "aix" ∅ Sample.download_ok (Ok 0%Z))
                (ViaArguments EntryPoints.prepare) ∅) as H.
  destruct H as [_ H]; [discriminate..|].
  cbn [entry] in H. rewrite H. reflexivity.
Defined.

(** ** Steps 5 to 10: lookup, fetch, launch *)

Lemma bind_assoc {A B C : Type} (m : Action A) (f : A -> Action B) (k : B -> Action C)
    (c : Cache) :
  bind (bind m f) k c = bind m (fun a => bind (f a) k) c.
Proof.
  unfold bind. destruct (m c) as [t c' [a|e]]; cbn; [|reflexivity].
  destruct (f a c') as [t2 c2 [b|e]]; cbn; [|reflexivity].
  now rewrite app_assoc.
Qed.

Lemma count_app (p : Event -> bool) (t u : list Event) :
  count p (t ++ u) = count p t + count p u.
Proof. unfold count. now rewrite List.filter_app, List.length_app. Qed.

Lemma count_cons (p : Event -> bool) (e : Event) (t : list Event) :
  count p (e :: t) = (if p e then 1 else 0) + count p t.
Proof. unfold count. cbn [List.filter]. now destruct (p e). Qed.

(** The last steps leave at most one event, a spawn. *)
Lemma launch_events (rt : Runtime) (l : Launcher) (dir name : string) (p : Event -> bool) :
  (forall cmd args, p (Exec cmd args) = false) ->
  List.filter p (launch rt l dir name) = [].
Proof.
  intros Hp. destruct l as [getArgs|rustCommand]; cbn [launch].
  - destruct (getArgs _); [|reflexivity]. cbn [List.filter]. now rewrite Hp.
  - cbn [List.filter]. now rewrite Hp.
Qed.

(** What remains of either launcher once the cached directory is known. *)
Lemma launch_run (rt : Runtime) (l : Launcher) (c : Cache) (dir name : string) :
  let rest :=
    match l with
    | ViaArguments getArgs =>
        bind (lift (getArgs (core_inputs (process_env rt))))
          (fun args => bind (exec rt (join rt dir name) args) (fun _ => ret tt))
    | ViaCommand rustCommand =>
        bind (exec rt (join rt dir name) [rustCommand]) (fun _ => ret tt)
    end in
  rest c = {| trace := launch rt l dir name; cache := c;
              result := launch_result rt l dir name |}.
Proof.
  destruct l as [getArgs|rustCommand]; cbn [launch launch_result rbind].
  - rewrite bind_lift. destruct (getArgs _) as [args|e]; [|reflexivity].
    rewrite bind_exec. cbn [rbind]. now destruct (exec_exec rt _ _).
  - rewrite bind_exec. now destruct (exec_exec rt _ _).
Qed.

Ltac finish_launch rt l c dir name :=
  let H := fresh "H" in
  pose proof (launch_run rt l c dir name) as H;
  cbn [bin_name manifest_path] in *; rewrite H; reflexivity.

(** A run that finds the directory in the cache. *)
Lemma hit_run (rt : Runtime) (l : Launcher) (c : Cache)
    (toml : Toml) (org name dir : string) :
  prepared rt l toml org name ->
  cache_hit c org (pkg_version (package toml)) dir ->
  action rt l c
  = {| trace := [ReadFile (manifest_path rt l); Find org (pkg_version (package toml))]
                ++ launch rt l dir name;
       cache := c;
       result := launch_result rt l dir name |}.
Proof.
  intros Hprep [Hc Hdir].
  destruct l as [getArgs|rustCommand]; to_lookup Hprep.
  all: rewrite Hc; cbn [from_option id]; rewrite Hdir; cbn [negb]; rewrite bind_ret.
  - finish_launch rt (ViaArguments getArgs) c dir name.
  - finish_launch rt (ViaCommand rustCommand) c dir (pkg_name (package toml)).
Qed.

(** A run that finds nothing and fetches the release. *)
Lemma miss_run (rt : Runtime) (l : Launcher) (c : Cache)
    (toml : Toml) (org name downloadPath extractPath dir : string) :
  prepared rt l toml org name ->
  cache_miss c org (pkg_version (package toml)) ->
  fetched rt org (pkg_version (package toml)) name downloadPath extractPath dir ->
  action rt l c
  = {| trace :=
         [ReadFile (manifest_path rt l); Find org (pkg_version (package toml));
          DownloadTool
            (releaseUrl org (pkg_version (package toml)) name (process_platform rt));
          ExtractTar downloadPath (process_env rt !! "RUNNER_TEMP");
          CacheFile (join rt extractPath (binaryName (process_platform rt) name))
            (binaryName (process_platform rt) name) org (pkg_version (package toml))]
         ++ launch rt l dir name;
       cache := <[(org, pkg_version (package toml)) := dir]> c;
       result := launch_result rt l dir name |}.
Proof.
  intros Hprep Hmiss (Hdl & Hex & Hreg). unfold cache_miss in Hmiss.
  destruct l as [getArgs|rustCommand]; to_lookup Hprep.
  all: rewrite Hmiss; cbn [negb bin_name];
    rewrite bind_assoc, bind_downloadTool, Hdl, bind_assoc, bind_extractTar, Hex,
      bind_cacheFile, Hreg.
  - finish_launch rt (ViaArguments getArgs)
      (<[(org, pkg_version (package toml)) := dir]> c) dir name.
  - finish_launch rt (ViaCommand rustCommand)
      (<[(org, pkg_version (package toml)) := dir]> c) dir (pkg_name (package toml)).
Qed.

(** Counts the events of one sort in a trace that ends with the launch. *)
Ltac count_events :=
  unfold count; rewrite List.filter_app, launch_events by reflexivity; reflexivity.

(** C1: when the cache holds a directory for the key (identifier, version),
    either launcher reads the manifest, looks the key up and goes straight
    to the launch from that directory: no download, no extraction, no
    registration, and the cache is left as it was. *)
Theorem cache_hit_skips_fetch (rt : Runtime) (l : Launcher) (c : Cache)
    (toml : Toml) (org name dir : string)
    (Hprep : prepared rt l toml org name)
    (Hhit : cache_hit c org (pkg_version (package toml)) dir) :
  let o := action rt l c in
  trace o = [ReadFile (manifest_path rt l); Find org (pkg_version (package toml))]
            ++ launch rt l dir name
  /\ count is_download (trace o) = 0
  /\ count is_extract (trace o) = 0
  /\ count is_cache_file (trace o) = 0
  /\ cache o = c.
Proof.
  cbv zeta. rewrite (hit_run rt l c toml org name dir Hprep Hhit). cbn [trace cache].
  repeat split; count_events.
Qed.

(** C2: when the cache has nothing for the key and the download, the
    extraction and the registration succeed, either launcher performs
    exactly one of each, the registration being under that key; the cache
    then holds the returned directory, and the next invocation launches
    from the same directory with no download, extraction or registration,
    leaving the cache unchanged. *)
Theorem cache_miss_fetches_once (rt : Runtime) (l : Launcher) (c : Cache)
    (toml : Toml) (org name downloadPath extractPath dir : string)
    (Hprep : prepared rt l toml org name)
    (Hmiss : cache_miss c org (pkg_version (package toml)))
    (Hfetch : fetched rt org (pkg_version (package toml)) name downloadPath extractPath dir)
    (Hdir : Str.truthy dir = true) :
  let version := pkg_version (package toml) in
  let file := binaryName (process_platform rt) name in
  let first := action rt l c in
  let again := action rt l (cache first) in
  trace first =
    [ReadFile (manifest_path rt l); Find org version;
     DownloadTool (releaseUrl org version name (process_platform rt));
     ExtractTar downloadPath (process_env rt !! "RUNNER_TEMP");
     CacheFile (join rt extractPath file) file org version]
    ++ launch rt l dir name
  /\ count is_download (trace first) = 1
  /\ count is_extract (trace first) = 1
  /\ count is_cache_file (trace first) = 1
  /\ cache first !! (org, version) = Some dir
  /\ trace again = [ReadFile (manifest_path rt l); Find org version] ++ launch rt l dir name
  /\ count is_download (trace again) = 0
  /\ count is_extract (trace again) = 0
  /\ count is_cache_file (trace again) = 0
  /\ cache again = cache first.
Proof.
  cbv zeta.
  rewrite (miss_run rt l c toml org name downloadPath extractPath dir Hprep Hmiss Hfetch).
  cbn [trace cache].
  assert (cache_hit (<[(org, pkg_version (package toml)) := dir]> c)
            org (pkg_version (package toml)) dir) as Hhit.
  { split; [apply lookup_insert_eq|exact Hdir]. }
  rewrite (hit_run rt l _ toml org name dir Hprep Hhit). cbn [trace cache].
  repeat split; try count_events.
  apply Hhit.
Qed.

Lemma sample_prepared (platform : string) (env : gmap string string)
    (download : string -> Result string) (spawn : Result Z) (l : Launcher) :
  unsupported platform = false ->
  prepared (Sample.runner platform env download spawn) l Sample.manifest "acme/mycli" "mycli".
Proof.
  intros Hplat. split.
  - exact Hplat.
  - exists "[package]". split; reflexivity.
  - destruct l; reflexivity.
  - reflexivity.
Qed.

Lemma cache_hit_skips_fetch_witness :
  let o := action Sample.linux (ViaCommand "prepare") Sample.warm in
  trace o = [ReadFile "/work/.github/bootstrap/../Cargo.toml";
             Find "acme/mycli" "1.2.3";
             Exec "/toolcache/acme/mycli/1.2.3/x64/mycli" ["prepare"]]
  /\ count is_download (trace o) = 0
  /\ count is_extract (trace o) = 0
  /\ count is_cache_file (trace o) = 0
  /\ cache o = Sample.warm.
Proof.
  apply (cache_hit_skips_fetch Sample.linux (ViaCommand "prepare") Sample.warm
           Sample.manifest "acme/mycli" "mycli" "/toolcache/acme/mycli/1.2.3/x64").
  - apply sample_prepared. reflexivity.
  - split; reflexivity.
Defined.

Lemma cache_miss_fetches_once_witness :
  let first := action Sample.windows (ViaArguments EntryPoints.prepare) ∅ in
  let again := action Sample.windows (ViaArguments EntryPoints.prepare) (cache first) in
  trace first =
    [ReadFile "/work/.github/bootstrap/../../Cargo.toml";
     Find "acme/mycli" "1.2.3";
     DownloadTool
       "https://github.com/acme/mycli/releases/download/v1.2.3/mycli-v1.2.3-win32-x64.tar.gz";
     ExtractTar "/tmp/download" None;
     CacheFile "/tmp/extract/mycli.exe" "mycli.exe" "acme/mycli" "1.2.3";
     Exec "/toolcache/acme/mycli/1.2.3/x64/mycli" ["prepare"; "--bump"; "minor"; ""]]
  /\ count is_download (trace first) = 1
  /\ count is_extract (trace first) = 1
  /\ count is_cache_file (trace first) = 1
  /\ cache first !! ("acme/mycli", "1.2.3") = Some "/toolcache/acme/mycli/1.2.3/x64"
  /\ trace again =
    [ReadFile "/work/.github/bootstrap/../../Cargo.toml";
     Find "acme/mycli" "1.2.3";
     Exec "/toolcache/acme/mycli/1.2.3/x64/mycli" ["prepare"; "--bump"; "minor"; ""]]
  /\ count is_download (trace again) = 0
  /\ count is_extract (trace again) = 0
  /\ count is_cache_file (trace again) = 0
  /\ cache again = cache first.
Proof.
  apply (cache_miss_fetches_once Sample.windows (ViaArguments EntryPoints.prepare) ∅
           Sample.manifest "acme/mycli" "mycli" "/tmp/download" "/tmp/extract"
           "/toolcache/acme/mycli/1.2.3/x64").
  - apply sample_prepared. reflexivity.
  - reflexivity.
  - repeat split; reflexivity.
  - reflexivity.
Defined.

(** ** Any run, whatever the libraries answer *)

(** Splits on what the next library call answers. *)
Ltac explore :=
  repeat first
    [ rewrite bind_assoc
    | run_step
    | match goal with
      | |- context [match ?x with Ok _ => _ | Throw _ => _ end] => destruct x eqn:?
      | |- context [if ?b then _ else _] => destruct b eqn:?
      | |- context [match ?x with [] => _ | _ :: _ => _ end] => destruct x eqn:?
      end ].

Ltac unfold_action l :=
  destruct l as [?getArgs|?rustCommand]; cbn [action entry];
  unfold Bootstrap.invokeWith, Command.run,
    Bootstrap.executeRustBinaryAction, Command.execute_rust_binary_action.

(** Either launcher makes each library call at most once, and reports
    nothing itself. *)
Lemma action_calls_once (rt : Runtime) (l : Launcher) (c : Cache) :
  let t := trace (action rt l c) in
  count is_read_file t <= 1 /\ count is_find t <= 1 /\ count is_download t <= 1
  /\ count is_extract t <= 1 /\ count is_cache_file t <= 1 /\ count is_exec t <= 1
  /\ count is_set_failed t = 0.
Proof.
  cbv zeta. unfold_action l; explore; outcome; repeat split; lia.
Qed.

(** The entry point is the launcher followed by the rejection handler. *)
Lemma entry_run (rt : Runtime) (l : Launcher) (c : Cache) :
  entry rt l c =
  match result (action rt l c) with
  | Ok _ => action rt l c
  | Throw (ErrorObj _ message) =>
      {| trace := trace (action rt l c) ++ [SetFailed message];
         cache := cache (action rt l c); result := Ok tt |}
  | Throw (NonError _) =>
      {| trace := trace (action rt l c) ++ [];
         cache := cache (action rt l c); result := Ok tt |}
  end.
Proof.
  destruct l as [getArgs|rustCommand]; cbn [entry action];
    unfold Bootstrap.invokeWith, Command.run, catch.
  - destruct (result (Bootstrap.executeRustBinaryAction rt getArgs c)) as [|[]]; reflexivity.
  - destruct (result (Command.execute_rust_binary_action rt rustCommand c)) as [|[]];
      reflexivity.
Qed.

(** Where a rejection can come from: the platform guard, one of the
    library calls, the manifest lacking a binary or the URL lacking a path,
    or the argument builder. *)
Lemma rejection_origin (rt : Runtime) (l : Launcher) (c : Cache) (e : Thrown) :
  result (action rt l c) = Throw e ->
  e = new_Error ("Unsupported platform: " +:+ process_platform rt)
  \/ fs_readFileSync rt (manifest_path rt l) = Throw e
  \/ (exists text, toml_parse rt text = Throw e)
  \/ (exists message, e = new_TypeError message)
  \/ (exists url, tc_downloadTool rt url = Throw e)
  \/ (exists file dest, tc_extractTar rt file dest = Throw e)
  \/ (exists src target tool version, tc_cacheFile rt src target tool version = Throw e)
  \/ (exists getArgs, l = ViaArguments getArgs
                      /\ getArgs (core_inputs (process_env rt)) = Throw e)
  \/ (exists cmd args, exec_exec rt cmd args = Throw e).
Proof.
  unfold_action l; cbn [manifest_path]; unfold githubOrgAndName; explore; outcome;
    intros H; try discriminate H; injection H as <-;
    repeat match goal with
      | H : match ?x with _ => _ end = _ |- _ => destruct x; try discriminate H
      end;
    simplify_eq; eauto 20.
Qed.

(** ** The top-level boundary *)

(** C9: whatever step rejects with an [Error] (its name is of no account),
    the entry point of either launcher catches it and reports exactly one
    failure, whose text is the error's message, after the events of the
    launcher; the entry point itself completes normally, and no library
    call was made twice. *)
Theorem rejection_reported_once (rt : Runtime) (l : Launcher) (c : Cache)
    (kind message : string)
    (Hrejected : result (action rt l c) = Throw (ErrorObj kind message)) :
  let o := entry rt l c in
  trace o = trace (action rt l c) ++ [SetFailed message]
  /\ count is_set_failed (trace o) = 1
  /\ result o = Ok tt
  /\ cache o = cache (action rt l c)
  /\ count is_read_file (trace o) <= 1 /\ count is_find (trace o) <= 1
  /\ count is_download (trace o) <= 1 /\ count is_extract (trace o) <= 1
  /\ count is_cache_file (trace o) <= 1 /\ count is_exec (trace o) <= 1.
Proof.
  cbv zeta. rewrite entry_run, Hrejected. cbn [trace cache result].
  destruct (action_calls_once rt l c) as (Hr & Hf & Hd & He & Hc & Hx & Hs).
  rewrite !count_app. unfold count at 2 4 6 8 10 12 14. cbn [List.filter is_set_failed
    is_read_file is_find is_download is_extract is_cache_file is_exec length].
  repeat split; lia.
Qed.

Lemma rejection_reported_once_witness :
  let rt := Sample.runner "linux" Sample.inputs
              (fun _ => Throw (ErrorObj "HTTPError" "Unexpected HTTP response: 404"))
              (Ok 0%Z) in
  let o := entry rt (ViaArguments EntryPoints.prepare) ∅ in
  trace o = trace (action rt (ViaArguments EntryPoints.prepare) ∅)
            ++ [SetFailed "Unexpected HTTP response: 404"]
  /\ count is_set_failed (trace o) = 1
  /\ result o = Ok tt
  /\ cache o = cache (action rt (ViaArguments EntryPoints.prepare) ∅)
  /\ count is_read_file (trace o) <= 1 /\ count is_find (trace o) <= 1
  /\ count is_download (trace o) <= 1 /\ count is_extract (trace o) <= 1
  /\ count is_cache_file (trace o) <= 1 /\ count is_exec (trace o) <= 1.
Proof.
  apply (rejection_reported_once
           (Sample.runner "linux" Sample.inputs
              (fun _ => Throw (ErrorObj "HTTPError" "Unexpected HTTP response: 404"))
              (Ok 0%Z))
           (ViaArguments EntryPoints.prepare) ∅ "HTTPError").
  reflexivity.
Defined.

(** C10: when the launcher rejects with a value that is not an [Error],
    such as a thrown string, the entry point completes normally and reports
    nothing: its trace is the launcher's, with no [SetFailed] in it. *)
Theorem non_error_rejection_swallowed (rt : Runtime) (l : Launcher) (c : Cache)
    (value : string)
    (Hrejected : result (action rt l c) = Throw (NonError value)) :
  let o := entry rt l c in
  trace o = trace (action rt l c)
  /\ count is_set_failed (trace o) = 0
  /\ result o = Ok tt
  /\ cache o = cache (action rt l c).
Proof.
  cbv zeta. rewrite entry_run, Hrejected. cbn [trace cache result].
  destruct (action_calls_once rt l c) as (_ & _ & _ & _ & _ & _ & Hs).
  rewrite app_nil_r. repeat split. exact Hs.
Qed.

Lemma non_error_rejection_swallowed_witness :
  let l := ViaArguments (fun _ => Throw (NonError "no arguments")) in
  let o := entry Sample.linux l Sample.warm in
  trace o = trace (action Sample.linux l Sample.warm)
  /\ count is_set_failed (trace o) = 0
  /\ result o = Ok tt
  /\ cache o = cache (action Sample.linux l Sample.warm).
Proof.
  apply (non_error_rejection_swallowed Sample.linux
           (ViaArguments (fun _ => Throw (NonError "no arguments"))) Sample.warm
           "no arguments").
  reflexivity.
Defined.

(** ** The release URL and the spawned path *)

(** A truthy lookup answer is a directory the cache holds. *)
Lemma truthy_lookup (c : Cache) (key : string * string) :
  Str.truthy (default "" (c !! key)) = true ->
  c !! key = Some (default "" (c !! key)).
Proof. destruct (c !! key); [reflexivity|discriminate]. Qed.

(** C3: the URL is a function of the organization/repository identifier,
    the version, the binary name and the platform: the fixed template
    filled with them, with the literal [x64] and [.tar.gz]; and on a cache
    miss this URL is the one, and the only one, either launcher downloads. *)
Theorem release_url_of_download (rt : Runtime) (l : Launcher) (c : Cache)
    (toml : Toml) (org repo version name platform : string) :
  let url := "https://github.com/" +:+ org +:+ "/" +:+ repo +:+ "/releases/download/v"
             +:+ version +:+ "/" +:+ name +:+ "-v" +:+ version +:+ "-" +:+ platform
             +:+ "-x64.tar.gz" in
  releaseUrl (org +:+ "/" +:+ repo) version name platform = url
  /\ (prepared rt l toml (org +:+ "/" +:+ repo) name ->
      cache_miss c (org +:+ "/" +:+ repo) (pkg_version (package toml)) ->
      version = pkg_version (package toml) ->
      platform = process_platform rt ->
      List.filter is_download (trace (action rt l c)) = [DownloadTool url]).
Proof.
  cbv zeta.
  assert (releaseUrl (org +:+ "/" +:+ repo) version name platform
          = "https://github.com/" +:+ org +:+ "/" +:+ repo +:+ "/releases/download/v"
            +:+ version +:+ "/" +:+ name +:+ "-v" +:+ version +:+ "-" +:+ platform
            +:+ "-x64.tar.gz") as Hurl.
  { unfold releaseUrl. now rewrite !append_assoc. }
  split; [exact Hurl|]. intros Hprep Hmiss -> ->. rewrite <- Hurl. unfold cache_miss in Hmiss.
  destruct l as [getArgs|rustCommand]; to_lookup Hprep.
  all: rewrite Hmiss; cbn [negb bin_name]; explore; outcome; reflexivity.
Qed.

Lemma release_url_of_download_witness :
  List.filter is_download (trace (action Sample.linux (ViaCommand "prepare") ∅))
  = [DownloadTool
       "https://github.com/acme/mycli/releases/download/v1.2.3/mycli-v1.2.3-linux-x64.tar.gz"].
Proof.
  apply (release_url_of_download Sample.linux (ViaCommand "prepare") ∅
           Sample.manifest "acme" "mycli" "1.2.3" "mycli" "linux").
  - apply (sample_prepared "linux"). reflexivity.
  - reflexivity.
  - reflexivity.
  - reflexivity.
Defined.

(** C4: in a run of either launcher that reaches the spawn, the spawned
    path is the cached directory (what the cache holds for the key after
    the run) joined with the bare binary name; the file registered on a
    miss carries the platform's name instead, which on [win32] is the bare
    name followed by [.exe] and so differs from the name that is spawned. *)
Theorem spawned_path_is_bare_name (rt : Runtime) (l : Launcher) (c : Cache)
    (toml : Toml) (org name cmd : string) (args : list string)
    (Hprep : prepared rt l toml org name)
    (Hspawn : In (Exec cmd args) (trace (action rt l c))) :
  let o := action rt l c in
  (exists dir, cache o !! (org, pkg_version (package toml)) = Some dir
               /\ cmd = join rt dir name)
  /\ (forall src target tool version,
        In (CacheFile src target tool version) (trace o) ->
        target = binaryName (process_platform rt) name
        /\ (process_platform rt = "win32" -> target = name +:+ ".exe"))
  /\ (process_platform rt = "win32" -> binaryName (process_platform rt) name <> name).
Proof.
  assert (process_platform rt = "win32" -> binaryName (process_platform rt) name <> name)
    as Hexe.
  { intros ->. apply append_exe_differs. }
  assert (forall target, target = binaryName (process_platform rt) name ->
            target = binaryName (process_platform rt) name
            /\ (process_platform rt = "win32" -> target = name +:+ ".exe")) as Hfile.
  { intros target ->. split; [reflexivity|]. intros ->. reflexivity. }
  cbv zeta. revert Hspawn.
  destruct l as [getArgs|rustCommand]; to_lookup Hprep.
  all: cbn [bin_name]; explore; outcome; cbn [In]; intros Hspawn.
  all: repeat match goal with H : _ \/ _ |- _ => destruct H as [H|H] end;
    try discriminate; try contradiction.
  all: injection Hspawn as <- <-.
  all: split; [|split; [|exact Hexe]];
    [ eexists; split; [first [apply lookup_insert_eq | apply truthy_lookup]|]
    | intros src target tool version Hin;
      repeat match goal with H : _ \/ _ |- _ => destruct H as [H|H] end;
      try discriminate; try contradiction ].
  all: try reflexivity.
  all: try (match goal with H : negb _ = false |- _ =>
              apply negb_false_iff in H; exact H end).
  all: try (injection Hin as _ <- _ _; apply Hfile; reflexivity).
Qed.

Lemma spawned_path_is_bare_name_witness :
  let o := action Sample.windows (ViaArguments EntryPoints.prepare) ∅ in
  (exists dir, cache o !! ("acme/mycli", "1.2.3") = Some dir
               /\ "/toolcache/acme/mycli/1.2.3/x64/mycli" = join Sample.windows dir "mycli")
  /\ (forall src target tool version,
        In (CacheFile src target tool version) (trace o) ->
        target = binaryName "win32" "mycli"
        /\ ("win32" = "win32" -> target = "mycli.exe"))
  /\ ("win32" = "win32" -> binaryName "win32" "mycli" <> "mycli").
Proof.
  apply (spawned_path_is_bare_name Sample.windows (ViaArguments EntryPoints.prepare) ∅
           Sample.manifest "acme/mycli" "mycli"
           "/toolcache/acme/mycli/1.2.3/x64/mycli" ["prepare"; "--bump"; "minor"; ""]).
  - apply (sample_prepared "win32"). reflexivity.
  - vm_compute. tauto.
Defined.

(** ** Required inputs *)

(** A required input that is absent makes [getInput] throw, naming it. *)
Lemma getInput_required_absent (env : gmap string string) (name : string) :
  Str.truthy (default "" (env !! Core.input_variable name)) = false ->
  Core.getInput env name Core.required_true
  = Throw (new_Error ("Input required and not supplied: " +:+ name)).
Proof. intros H. unfold Core.getInput. now rewrite H. Qed.

(** A required input that is present is returned trimmed. *)
Lemma getInput_required_present (env : gmap string string) (name : string) :
  Str.truthy (default "" (env !! Core.input_variable name)) = true ->
  Core.getInput env name Core.required_true
  = Ok (Str.trim (default "" (env !! Core.input_variable name))).
Proof. intros H. unfold Core.getInput. now rewrite H. Qed.

(** The first absent name of a list is one of its names, and is absent. *)
Lemma first_absent_spec (env : gmap string string) (names : list string) (n : string) :
  first_absent env names = Some n -> In n names /\ absent env n.
Proof.
  induction names as [|m names IH]; [discriminate|].
  cbn [first_absent].
  destruct (Str.truthy (default "" (env !! Core.input_variable m))) eqn:Hm.
  - intros H. destruct (IH H). split; [now right|assumption].
  - intros [= <-]. split; [now left|exact Hm].
Qed.

(** Each entry point throws on its first absent required input. *)
Lemma entry_point_throws (env : gmap string string) (getArgs : GetArguments)
    (reqs : list string) (n : string) :
  In (getArgs, reqs) entry_points ->
  first_absent env reqs = Some n ->
  getArgs (core_inputs env)
  = Throw (new_Error ("Input required and not supplied: " +:+ n)).
Proof.
  unfold entry_points. cbn [In].
  intros Hin Habs.
  repeat match goal with H : _ \/ _ |- _ => destruct H as [H|H] end;
    try contradiction; injection Hin as <- <-;
    unfold EntryPoints.update_builder_path, EntryPoints.update_builder_hyphen,
      EntryPoints.update_builder, EntryPoints.prepare, EntryPoints.prepare_release;
    cbn [core_inputs getInput first_absent] in *;
    repeat match goal with
      | H : (if Str.truthy ?v then _ else _) = Some _ |- _ =>
          let E := fresh "E" in
          destruct (Str.truthy v) eqn:E;
          [ rewrite (getInput_required_present _ _ E); cbn [rbind]
          | injection H as <-; rewrite (getInput_required_absent _ _ E); reflexivity ]
      end;
    discriminate.
Qed.

(** When the argument builder throws, nothing is spawned. *)
Lemma builder_throws_no_spawn (rt : Runtime) (getArgs : GetArguments) (c : Cache)
    (e : Thrown) :
  getArgs (core_inputs (process_env rt)) = Throw e ->
  count is_exec (trace (Bootstrap.executeRustBinaryAction rt getArgs c)) = 0.
Proof.
  intros Hthrow. unfold Bootstrap.executeRustBinaryAction.
  explore; outcome; try reflexivity; congruence.
Qed.

(** C5, as the code has it: the argument builder runs after the manifest
    read, the cache lookup and, on a miss, the download, the extraction and
    the registration, and before the spawn.  So when a required input of an
    entry point is absent, the invocation spawns no child process and
    completes with the failure reported; on a cache hit its events are the
    manifest read, the lookup and the report; on a miss whose fetch
    succeeds they are the manifest read, the lookup, the download, the
    extraction, the registration and then the report, and the cache holds
    the registered directory.  The one reported failure is
    [Input required and not supplied: ] followed by the name of the first
    absent required input. *)
Theorem missing_required_input_reported (rt : Runtime) (c : Cache)
    (getArgs : GetArguments) (reqs : list string) (n : string)
    (Hentry : In (getArgs, reqs) entry_points)
    (Habsent : first_absent (process_env rt) reqs = Some n) :
  let o := Bootstrap.invokeWith rt getArgs c in
  let l := ViaArguments getArgs in
  let message := "Input required and not supplied: " +:+ n in
  In n reqs /\ absent (process_env rt) n
  /\ count is_exec (trace o) = 0
  /\ result o = Ok tt
  /\ (forall toml org name dir,
        resolved rt l c toml org name dir ->
        List.filter is_set_failed (trace o) = [SetFailed message]
        /\ last (trace o) = Some (SetFailed message))
  /\ (forall toml org name dir,
        prepared rt l toml org name ->
        cache_hit c org (pkg_version (package toml)) dir ->
        trace o = [ReadFile (manifest_path rt l); Find org (pkg_version (package toml));
                   SetFailed message]
        /\ cache o = c)
  /\ (forall toml org name downloadPath extractPath dir,
        prepared rt l toml org name ->
        cache_miss c org (pkg_version (package toml)) ->
        fetched rt org (pkg_version (package toml)) name downloadPath extractPath dir ->
        trace o = [ReadFile (manifest_path rt l); Find org (pkg_version (package toml));
                   DownloadTool (releaseUrl org (pkg_version (package toml)) name
                                   (process_platform rt));
                   ExtractTar downloadPath (process_env rt !! "RUNNER_TEMP");
                   CacheFile (join rt extractPath (binaryName (process_platform rt) name))
                     (binaryName (process_platform rt) name) org
                     (pkg_version (package toml));
                   SetFailed message]
        /\ cache o !! (org, pkg_version (package toml)) = Some dir).
Proof.
  cbv zeta.
  pose proof (entry_point_throws _ _ _ _ Hentry Habsent) as Hthrow.
  pose proof (builder_throws_no_spawn rt getArgs c _ Hthrow) as Hspawn.
  pose proof (entry_run rt (ViaArguments getArgs) c) as Hrun. cbn [entry action] in Hrun.
  destruct (first_absent_spec _ _ _ Habsent) as [Hin Hn].
  assert (forall toml org name dir,
            prepared rt (ViaArguments getArgs) toml org name ->
            cache_hit c org (pkg_version (package toml)) dir ->
            Bootstrap.invokeWith rt getArgs c
            = {| trace := [ReadFile (manifest_path rt (ViaArguments getArgs));
                           Find org (pkg_version (package toml));
                           SetFailed ("Input required and not supplied: " +:+ n)];
                 cache := c; result := Ok tt |}) as Hhit_run.
  { intros toml org name dir Hprep Hhit.
    pose proof (hit_run rt _ c toml org name dir Hprep Hhit) as Hr.
    cbn [action launch launch_result rbind] in Hr. rewrite Hthrow in Hr.
    rewrite Hrun, Hr. reflexivity. }
  assert (forall toml org name dl ex dir,
            prepared rt (ViaArguments getArgs) toml org name ->
            cache_miss c org (pkg_version (package toml)) ->
            fetched rt org (pkg_version (package toml)) name dl ex dir ->
            Bootstrap.invokeWith rt getArgs c
            = {| trace := [ReadFile (manifest_path rt (ViaArguments getArgs));
                           Find org (pkg_version (package toml));
                           DownloadTool (releaseUrl org (pkg_version (package toml)) name
                                           (process_platform rt));
                           ExtractTar dl (process_env rt !! "RUNNER_TEMP");
                           CacheFile (join rt ex (binaryName (process_platform rt) name))
                             (binaryName (process_platform rt) name) org
                             (pkg_version (package toml));
                           SetFailed ("Input required and not supplied: " +:+ n)];
                 cache := <[(org, pkg_version (package toml)) := dir]> c;
                 result := Ok tt |}) as Hmiss_run.
  { intros toml org name dl ex dir Hprep Hmiss Hfetch.
    pose proof (miss_run rt _ c toml org name dl ex dir Hprep Hmiss Hfetch) as Hr.
    cbn [action launch launch_result rbind] in Hr. rewrite Hthrow in Hr.
    rewrite Hrun, Hr. reflexivity. }
  split; [exact Hin|]. split; [exact Hn|].
  split.
  { rewrite Hrun.
    destruct (result (Bootstrap.executeRustBinaryAction rt getArgs c)) as [|[]];
      cbn [trace]; rewrite ?count_app, Hspawn; reflexivity. }
  split.
  { rewrite Hrun.
    destruct (Bootstrap.executeRustBinaryAction rt getArgs c) as [t c' [[]|[]]]; reflexivity. }
  split.
  { intros toml org name dir [Hprep [Hhit | (Hmiss & dl & ex & Hfetch)]].
    - rewrite (Hhit_run toml org name dir Hprep Hhit). split; reflexivity.
    - rewrite (Hmiss_run toml org name dl ex dir Hprep Hmiss Hfetch). split; reflexivity. }
  split.
  { intros toml org name dir Hprep Hhit.
    rewrite (Hhit_run toml org name dir Hprep Hhit). split; reflexivity. }
  intros toml org name dl ex dir Hprep Hmiss Hfetch.
  rewrite (Hmiss_run toml org name dl ex dir Hprep Hmiss Hfetch). cbn [trace cache].
  split; [reflexivity|apply lookup_insert_eq].
Qed.

Lemma missing_required_input_reported_witness :
  let o := Bootstrap.invokeWith (Sample.runner "linux" ∅ Sample.download_ok (Ok 0%Z))
             EntryPoints.prepare ∅ in
  count is_exec (trace o) = 0
  /\ result o = Ok tt
  /\ trace o
     = [ReadFile "/work/.github/bootstrap/../../Cargo.toml";
        Find "acme/mycli" "1.2.3";
        DownloadTool
          "https://github.com/acme/mycli/releases/download/v1.2.3/mycli-v1.2.3-linux-x64.tar.gz";
        ExtractTar "/tmp/download" None;
        CacheFile "/tmp/extract/mycli" "mycli" "acme/mycli" "1.2.3";
        SetFailed "Input required and not supplied: bump"]
  /\ cache o !! ("acme/mycli", "1.2.3") = Some "/toolcache/acme/mycli/1.2.3/x64".
Proof.
  assert (In (EntryPoints.prepare, ["bump"]) entry_points) as Hentry.
  { do 3 right. left. reflexivity. }
  assert (first_absent ∅ ["bump"] = Some "bump") as Habsent by reflexivity.
  destruct (missing_required_input_reported
              (Sample.runner "linux" ∅ Sample.download_ok (Ok 0%Z)) ∅
              EntryPoints.prepare ["bump"] "bump" Hentry Habsent)
    as (_ & _ & Hspawn & Hresult & _ & _ & Hmiss).
  split; [exact Hspawn|]. split; [exact Hresult|].
  apply (Hmiss Sample.manifest "acme/mycli" "mycli" "/tmp/download" "/tmp/extract"
           "/toolcache/acme/mycli/1.2.3/x64").
  - apply sample_prepared. reflexivity.
  - reflexivity.
  - split; [reflexivity|]. split; reflexivity.
Defined.

(** C5 as the specification words it does not hold: with an empty cache
    and the required input [path] not supplied, the release is downloaded,
    extracted and registered before the failure is reported. *)
Lemma missing_input_fails_after_download :
  let rt := Sample.runner "linux" ∅ Sample.download_ok (Ok 0%Z) in
  process_env rt !! Core.input_variable "path" = None
  /\ trace (Bootstrap.invokeWith rt EntryPoints.update_builder_path ∅)
     = [ReadFile "/work/.github/bootstrap/../../Cargo.toml";
        Find "acme/mycli" "1.2.3";
        DownloadTool
          "https://github.com/acme/mycli/releases/download/v1.2.3/mycli-v1.2.3-linux-x64.tar.gz";
        ExtractTar "/tmp/download" None;
        CacheFile "/tmp/extract/mycli" "mycli" "acme/mycli" "1.2.3";
        SetFailed "Input required and not supplied: path"].
Proof. split; vm_compute; reflexivity. Qed.

(** * Further properties of the launchers *)

(** ** The entry point and the order of calls *)

(** X1: the entry point of either launcher always completes normally and
    leaves the cache as the launcher left it; it reports at most one
    failure, and exactly one precisely when the launcher rejected with an
    [Error]; when the launcher fulfils, the entry point adds nothing. *)
Theorem entry_always_fulfils (rt : Runtime) (l : Launcher) (c : Cache) :
  let a := action rt l c in
  let o := entry rt l c in
  result o = Ok tt
  /\ cache o = cache a
  /\ count is_set_failed (trace o) <= 1
  /\ (count is_set_failed (trace o) = 1 <->
      exists kind message, result a = Throw (ErrorObj kind message))
  /\ (result a = Ok tt -> o = a).
Proof.
  cbv zeta. rewrite entry_run.
  destruct (action_calls_once rt l c) as (_ & _ & _ & _ & _ & _ & Hnone).
  destruct (action rt l c) as [t c' [[]|[kind message|value]]];
    cbn [trace cache result] in *; rewrite ?count_app, ?Hnone;
    cbn [count List.filter is_set_failed length Nat.add].
  - split; [reflexivity|]. split; [reflexivity|]. split; [lia|].
    split; [|reflexivity].
    split; [intros H; lia | intros (? & ? & H); discriminate H].
  - split; [reflexivity|]. split; [reflexivity|]. split; [lia|].
    split; [|intros H; discriminate H].
    split; [eauto | reflexivity].
  - split; [reflexivity|]. split; [reflexivity|]. split; [lia|].
    split; [|intros H; discriminate H].
    split; [intros H; lia | intros (? & ? & H); discriminate H].
Qed.

(** X2: whatever the libraries answer, the calls of a launcher come in one
    fixed order, each at most once: manifest read, cache lookup, then
    either nothing or download, extraction, registration in that order,
    then the spawn; a run is a prefix of that sequence, and a spawn never
    follows a partial fetch.  The entry point adds at most the report. *)
Theorem trace_shape (rt : Runtime) (l : Launcher) (c : Cache) :
  In (map stage (trace (action rt l c))) shapes
  /\ (map stage (trace (entry rt l c)) = map stage (trace (action rt l c))
      \/ map stage (trace (entry rt l c)) = map stage (trace (action rt l c)) ++ [6]).
Proof.
  split.
  - unfold shapes. unfold_action l; explore; outcome; cbn [map stage In]; tauto.
  - rewrite entry_run.
    destruct (action rt l c) as [t c' [[]|[kind message|value]]]; cbn [trace result].
    + now left.
    + right. now rewrite map_app.
    + left. now rewrite app_nil_r.
Qed.

(** ** Failures while fetching *)

(** X3: on a cache miss, a failing download, extraction or registration
    ends the run of either launcher at that call with that call's error:
    the later calls are not made, nothing is spawned, and the cache is left
    as it was. *)
Theorem fetch_failure_stops (rt : Runtime) (l : Launcher) (c : Cache)
    (toml : Toml) (org name : string) (e : Thrown)
    (Hprep : prepared rt l toml org name)
    (Hmiss : cache_miss c org (pkg_version (package toml))) :
  let version := pkg_version (package toml) in
  let url := releaseUrl org version name (process_platform rt) in
  let temp := process_env rt !! "RUNNER_TEMP" in
  let file := binaryName (process_platform rt) name in
  let before := [ReadFile (manifest_path rt l); Find org version; DownloadTool url] in
  (tc_downloadTool rt url = Throw e ->
   action rt l c = {| trace := before; cache := c; result := Throw e |})
  /\ (forall downloadPath,
        tc_downloadTool rt url = Ok downloadPath ->
        tc_extractTar rt downloadPath temp = Throw e ->
        action rt l c = {| trace := before ++ [ExtractTar downloadPath temp];
                           cache := c; result := Throw e |})
  /\ (forall downloadPath extractPath,
        tc_downloadTool rt url = Ok downloadPath ->
        tc_extractTar rt downloadPath temp = Ok extractPath ->
        tc_cacheFile rt (join rt extractPath file) file org version = Throw e ->
        action rt l c = {| trace := before ++ [ExtractTar downloadPath temp;
                                               CacheFile (join rt extractPath file) file
                                                 org version];
                           cache := c; result := Throw e |}).
Proof.
  cbv zeta. unfold cache_miss in Hmiss.
  destruct l as [getArgs|rustCommand]; to_lookup Hprep.
  all: rewrite Hmiss; cbn [negb bin_name manifest_path];
    rewrite bind_assoc, bind_downloadTool.
  all: split; [intros ->; reflexivity|].
  all: split; [intros dl -> Hex | intros dl ex -> Hex Hreg].
  all: rewrite bind_assoc, bind_extractTar, Hex; try reflexivity.
  all: rewrite bind_cacheFile, Hreg; reflexivity.
Qed.

Lemma fetch_failure_stops_witness :
  action (Faulty.runner "linux" (Ok "/tmp/extract") (Throw Faulty.not_found))
    (ViaCommand "prepare") ∅
  = {| trace := [ReadFile "/work/.github/bootstrap/../Cargo.toml";
                 Find "acme/mycli" "1.2.3";
                 DownloadTool
                   "https://github.com/acme/mycli/releases/download/v1.2.3/mycli-v1.2.3-linux-x64.tar.gz";
                 ExtractTar "/tmp/download" None;
                 CacheFile "/tmp/extract/mycli" "mycli" "acme/mycli" "1.2.3"];
       cache := ∅;
       result := Throw Faulty.not_found |}.
Proof.
  assert (prepared (Faulty.runner "linux" (Ok "/tmp/extract") (Throw Faulty.not_found))
            (ViaCommand "prepare") Sample.manifest "acme/mycli" "mycli") as Hprep.
  { split; [reflexivity | exists "[package]"; split; reflexivity | reflexivity..]. }
  assert (cache_miss ∅ "acme/mycli" "1.2.3") as Hmiss by reflexivity.
  destruct (fetch_failure_stops _ _ _ _ _ _ Faulty.not_found Hprep Hmiss) as (_ & _ & H).
  apply (H "/tmp/download" "/tmp/extract"); reflexivity.
Defined.

(** X4: a launcher registers a file in the cache only on a miss, after the
    download and the extraction both succeeded: any registration in a run
    follows a lookup of the same key that answered nothing, and registers,
    under the platform's file name, the file of that name in the directory
    the extraction returned. *)
Theorem registration_only_after_fetch (rt : Runtime) (l : Launcher) (c : Cache)
    (src target tool version : string)
    (Hregistered : In (CacheFile src target tool version) (trace (action rt l c))) :
  In (Find tool version) (trace (action rt l c))
  /\ cache_miss c tool version
  /\ exists toml name downloadPath extractPath,
       prepared rt l toml tool name
       /\ version = pkg_version (package toml)
       /\ tc_downloadTool rt (releaseUrl tool version name (process_platform rt))
          = Ok downloadPath
       /\ tc_extractTar rt downloadPath (process_env rt !! "RUNNER_TEMP") = Ok extractPath
       /\ target = binaryName (process_platform rt) name
       /\ src = join rt extractPath target.
Proof.
  revert Hregistered.
  unfold_action l; explore; outcome; cbn [In]; intros Hregistered.
  all: repeat match goal with H : _ \/ _ |- _ => destruct H as [H|H] end;
    try discriminate; try contradiction.
  all: injection Hregistered as <- <- <- <-.
  all: repeat match goal with
         | H : match ?x with _ => _ end = Ok _ |- _ =>
             destruct x eqn:?; try discriminate H; injection H as <-
         end.
  all: split; [tauto|].
  all: split;
    [ unfold cache_miss;
      match goal with H : negb _ = true |- _ => apply negb_true_iff in H; exact H end |].
  all: do 4 eexists.
  all: split;
    [ split;
      [ assumption
      | eexists; split; cbn [manifest_path]; eassumption
      | cbn [base_name]; try reflexivity;
        match goal with H : bin _ = _ |- _ => rewrite H; reflexivity end
      | assumption ] |].
  all: split; [reflexivity|].
  all: cbn [bin_name]; split; [eassumption|]; split; [eassumption|]; split; reflexivity.
Qed.

Lemma registration_only_after_fetch_witness :
  In (Find "acme/mycli" "1.2.3") (trace (action Sample.windows (ViaCommand "prepare") ∅))
  /\ cache_miss ∅ "acme/mycli" "1.2.3"
  /\ exists toml name downloadPath extractPath,
       prepared Sample.windows (ViaCommand "prepare") toml "acme/mycli" name
       /\ "1.2.3" = pkg_version (package toml)
       /\ tc_downloadTool Sample.windows (releaseUrl "acme/mycli" "1.2.3" name "win32")
          = Ok downloadPath
       /\ tc_extractTar Sample.windows downloadPath (process_env Sample.windows !! "RUNNER_TEMP")
          = Ok extractPath
       /\ "mycli.exe" = binaryName "win32" name
       /\ "/tmp/extract/mycli.exe" = join Sample.windows extractPath "mycli.exe".
Proof.
  apply (registration_only_after_fetch Sample.windows (ViaCommand "prepare") ∅
           "/tmp/extract/mycli.exe" "mycli.exe" "acme/mycli" "1.2.3").
  vm_compute. tauto.
Defined.

(** ** The cache key *)

(** X5: the platform is no part of the cache key.  After a run on one
    platform has fetched and registered the release, a run on any other
    supported platform over the same cache finds that directory and spawns
    from it: it downloads nothing for its own platform. *)
Theorem cache_key_ignores_platform (rt1 rt2 : Runtime) (l : Launcher) (c : Cache)
    (toml : Toml) (org name downloadPath extractPath dir : string)
    (Hfirst : prepared rt1 l toml org name)
    (Hsecond : prepared rt2 l toml org name)
    (Hmiss : cache_miss c org (pkg_version (package toml)))
    (Hfetch : fetched rt1 org (pkg_version (package toml)) name downloadPath extractPath dir)
    (Hdir : Str.truthy dir = true) :
  let first := action rt1 l c in
  let second := action rt2 l (cache first) in
  In (CacheFile (join rt1 extractPath (binaryName (process_platform rt1) name))
        (binaryName (process_platform rt1) name) org (pkg_version (package toml)))
     (trace first)
  /\ trace second = [ReadFile (manifest_path rt2 l); Find org (pkg_version (package toml))]
                    ++ launch rt2 l dir name
  /\ count is_download (trace second) = 0
  /\ cache second = cache first.
Proof.
  cbv zeta.
  rewrite (miss_run rt1 l c toml org name downloadPath extractPath dir Hfirst Hmiss Hfetch).
  cbn [trace cache].
  assert (cache_hit (<[(org, pkg_version (package toml)) := dir]> c)
            org (pkg_version (package toml)) dir) as Hhit.
  { split; [apply lookup_insert_eq|exact Hdir]. }
  rewrite (hit_run rt2 l _ toml org name dir Hsecond Hhit). cbn [trace cache].
  split; [cbn [In app]; tauto|].
  split; [reflexivity|]. split; [count_events|reflexivity].
Qed.

Lemma cache_key_ignores_platform_witness :
  let first := action Sample.windows (ViaCommand "prepare") ∅ in
  let second := action Sample.linux (ViaCommand "prepare") (cache first) in
  In (CacheFile "/tmp/extract/mycli.exe" "mycli.exe" "acme/mycli" "1.2.3") (trace first)
  /\ trace second = [ReadFile "/work/.github/bootstrap/../Cargo.toml";
                     Find "acme/mycli" "1.2.3";
                     Exec "/toolcache/acme/mycli/1.2.3/x64/mycli" ["prepare"]]
  /\ count is_download (trace second) = 0
  /\ cache second = cache first.
Proof.
  apply (cache_key_ignores_platform Sample.windows Sample.linux (ViaCommand "prepare") ∅
           Sample.manifest "acme/mycli" "mycli" "/tmp/download" "/tmp/extract"
           "/toolcache/acme/mycli/1.2.3/x64").
  - apply sample_prepared. reflexivity.
  - apply sample_prepared. reflexivity.
  - reflexivity.
  - repeat split; reflexivity.
  - reflexivity.
Defined.

(** X6: a cache lookup is made only when the platform is supported, the
    manifest was read and parsed, it names the binary and the repository
    URL gave an identifier; the key looked up is that identifier with the
    manifest's version. *)
Theorem lookup_only_when_prepared (rt : Runtime) (l : Launcher) (c : Cache)
    (tool version : string)
    (Hfind : In (Find tool version) (trace (action rt l c))) :
  exists toml name,
    prepared rt l toml tool name /\ version = pkg_version (package toml).
Proof.
  revert Hfind.
  unfold_action l; explore; outcome; cbn [In]; intros Hfind.
  all: repeat match goal with H : _ \/ _ |- _ => destruct H as [H|H] end;
    try discriminate; try contradiction.
  all: injection Hfind as <- <-.
  all: repeat match goal with
         | H : match ?x with _ => _ end = Ok _ |- _ =>
             destruct x eqn:?; try discriminate H; injection H as <-
         end.
  all: eexists; eexists; (split; [|reflexivity]).
  all: split;
    [ assumption
    | eexists; split; cbn [manifest_path]; eassumption
    | cbn [base_name]; try reflexivity
    | assumption ].
  all: match goal with H : bin _ = _ |- _ => rewrite H; reflexivity end.
Qed.

Lemma lookup_only_when_prepared_witness :
  exists toml name,
    prepared Sample.linux (ViaArguments EntryPoints.prepare) toml "acme/mycli" name
    /\ "1.2.3" = pkg_version (package toml).
Proof.
  apply (lookup_only_when_prepared Sample.linux (ViaArguments EntryPoints.prepare)
           Sample.warm "acme/mycli" "1.2.3").
  vm_compute. tauto.
Defined.

(** X7: the arguments of the spawn are exactly what the caller gave: the
    list returned by the argument builder over the process environment, or
    the single command; the launchers add and drop nothing. *)
Theorem spawn_arguments_pass_through (rt : Runtime) (l : Launcher) (c : Cache)
    (cmd : string) (args : list string)
    (Hspawn : In (Exec cmd args) (trace (action rt l c))) :
  match l with
  | ViaArguments getArgs => getArgs (core_inputs (process_env rt)) = Ok args
  | ViaCommand rustCommand => args = [rustCommand]
  end.
Proof.
  revert Hspawn.
  unfold_action l; explore; outcome; cbn [In]; intros Hspawn.
  all: repeat match goal with H : _ \/ _ |- _ => destruct H as [H|H] end;
    try discriminate; try contradiction.
  all: injection Hspawn as <- <-; first [assumption | reflexivity].
Qed.

Lemma spawn_arguments_pass_through_witness :
  EntryPoints.prepare (core_inputs (process_env Sample.linux))
  = Ok ["prepare"; "--bump"; "minor"; ""].
Proof.
  apply (spawn_arguments_pass_through Sample.linux (ViaArguments EntryPoints.prepare)
           Sample.warm "/toolcache/acme/mycli/1.2.3/x64/mycli").
  vm_compute. tauto.
Defined.

(** ** The identifier, whatever the path *)

Lemma strip_git_suffix_some (s : string) :
  Str.ends_with_git s = true -> s = Str.strip_git_suffix s +:+ ".git".
Proof.
  induction s as [|ch s IH]; [discriminate|].
  change (Str.ends_with_git (String ch s))
    with (String.eqb (String ch s) ".git" || Str.ends_with_git s).
  change (Str.strip_git_suffix (String ch s))
    with (if String.eqb (String ch s) ".git" then EmptyString
          else String ch (Str.strip_git_suffix s)).
  destruct (String.eqb_spec (String ch s) ".git") as [Heq|Hne].
  - intros _. exact Heq.
  - cbn [orb]. intros H. rewrite append_cons. f_equal. now apply IH.
Qed.

(** X8: the identifier is the path with at most one leading slash and at
    most one final [.git] taken off, and nothing else changed: a second
    leading slash, a [.git] that is not at the end and a second final
    [.git] all stay. *)
Theorem githubOrgAndName_strips_once (rt : Runtime) (repository pathname : string)
    (Hpath : url_pathname rt repository = Some pathname) :
  exists id,
    githubOrgAndName rt repository = Ok id
    /\ pathname = (if starts_with_slash pathname then "/" else "") +:+ id
                  +:+ (if Str.ends_with_git (Str.strip_leading_slash pathname)
                       then ".git" else "").
Proof.
  unfold githubOrgAndName. rewrite Hpath. eexists. split; [reflexivity|].
  assert (pathname = (if starts_with_slash pathname then "/" else "")
                     +:+ Str.strip_leading_slash pathname) as Hslash.
  { destruct pathname as [|ch rest]; [reflexivity|].
    unfold starts_with_slash, Str.strip_leading_slash.
    destruct ch as [[] [] [] [] [] [] [] []]; reflexivity. }
  rewrite Hslash at 1. f_equal.
  destruct (Str.ends_with_git (Str.strip_leading_slash pathname)) eqn:Hgit.
  - now apply strip_git_suffix_some.
  - rewrite (strip_git_suffix_none _ Hgit).
    generalize (Str.strip_leading_slash pathname). intros s.
    induction s as [|ch s IH]; [reflexivity|]. rewrite append_cons. now f_equal.
Qed.

Lemma githubOrgAndName_strips_once_witness :
  exists id,
    githubOrgAndName Sample.linux "https://github.com//acme/.github.git.git" = Ok id
    /\ "//acme/.github.git.git" = "/" +:+ id +:+ ".git".
Proof.
  apply (githubOrgAndName_strips_once Sample.linux
           "https://github.com//acme/.github.git.git" "//acme/.github.git.git").
  reflexivity.
Defined.

(** ** The argument builders *)

Lemma getInput_optional (env : gmap string string) (name : string) :
  Core.getInput env name Core.no_options = Ok (input_value env name).
Proof. reflexivity. Qed.

Lemma getInput_required (env : gmap string string) (name : string) :
  Str.truthy (default "" (env !! Core.input_variable name)) = true ->
  Core.getInput env name Core.required_true = Ok (input_value env name).
Proof. apply getInput_required_present. Qed.

(** All the names of a list are present. *)
Lemma first_absent_none (env : gmap string string) (names : list string) :
  first_absent env names = None ->
  Forall (fun n => Str.truthy (default "" (env !! Core.input_variable n)) = true) names.
Proof.
  induction names as [|n names IH]; [constructor|].
  cbn [first_absent].
  destruct (Str.truthy (default "" (env !! Core.input_variable n))) eqn:Hn; [|discriminate].
  intros H. constructor; [exact Hn|now apply IH].
Qed.

Ltac read_inputs :=
  repeat match goal with
    | H : Forall _ (_ :: _) |- _ => apply Forall_cons_iff in H; destruct H as [?Hn H]
    end;
  cbn [core_inputs getInput];
  repeat first [ rewrite getInput_required by assumption
               | rewrite getInput_optional ];
  cbn [rbind].



(** With every required input present an entry point returns a list. *)
Lemma entry_point_returns (env : gmap string string)
    (getArgs : GetArguments) (reqs : list string) :
  In (getArgs, reqs) entry_points ->
  first_absent env reqs = None ->
  exists args, getArgs (core_inputs env) = Ok args.
Proof.
  unfold entry_points. cbn [In]. intros Hentry Hnone.
  apply first_absent_none in Hnone.
  repeat match goal with H : _ \/ _ |- _ => destruct H as [H|H] end;
    try contradiction; injection Hentry as <- <-;
    unfold EntryPoints.update_builder_path, EntryPoints.update_builder_hyphen,
      EntryPoints.update_builder, EntryPoints.prepare, EntryPoints.prepare_release;
    read_inputs; eauto.
Qed.

(** X10: an entry point returns an argument list exactly when none of its
    required inputs is absent; otherwise it throws on the first absent one
    and the later inputs are not read. *)
Theorem entry_point_succeeds_iff (env : gmap string string)
    (getArgs : GetArguments) (reqs : list string)
    (Hentry : In (getArgs, reqs) entry_points) :
  ((exists args, getArgs (core_inputs env) = Ok args) <-> first_absent env reqs = None)
  /\ (forall n, first_absent env reqs = Some n ->
        getArgs (core_inputs env)
        = Throw (new_Error ("Input required and not supplied: " +:+ n))).
Proof.
  split; [|intros n; now apply entry_point_throws].
  split.
  - intros [args Hargs].
    destruct (first_absent env reqs) as [n|] eqn:Habs; [|reflexivity].
    rewrite (entry_point_throws env getArgs reqs n Hentry Habs) in Hargs. discriminate.
  - now apply entry_point_returns.
Qed.

Lemma entry_point_succeeds_iff_witness :
  (exists args, EntryPoints.prepare (core_inputs Sample.inputs) = Ok args)
  <-> first_absent Sample.inputs ["bump"] = None.
Proof.
  apply (entry_point_succeeds_iff Sample.inputs EntryPoints.prepare ["bump"]).
  do 3 right. left. reflexivity.
Defined.

(** ** The two launchers compared *)

(** X11: the two launchers do the same thing once three differences are
    levelled: the manifest they read (two paths, here with the same
    content), the name they use (first declared binary or package name,
    here equal) and the arguments (here the builder returns the single
    command).  After the manifest read their events are the same, and so
    are the cache and the result they end with. *)
Theorem launchers_agree (rt : Runtime) (c : Cache)
    (getArgs : GetArguments) (rustCommand : string)
    (Hfile : fs_readFileSync rt (manifest_path rt (ViaArguments getArgs))
             = fs_readFileSync rt (manifest_path rt (ViaCommand rustCommand)))
    (Hname : forall text toml,
        fs_readFileSync rt (manifest_path rt (ViaCommand rustCommand)) = Ok text ->
        toml_parse rt text = Ok toml ->
        base_name (ViaArguments getArgs) toml = Some (pkg_name (package toml)))
    (Hargs : getArgs (core_inputs (process_env rt)) = Ok [rustCommand]) :
  let a := action rt (ViaArguments getArgs) c in
  let b := action rt (ViaCommand rustCommand) c in
  skipn 1 (trace a) = skipn 1 (trace b)
  /\ cache a = cache b
  /\ result a = result b.
Proof.
  cbv zeta. cbn [action manifest_path base_name] in *.
  unfold Bootstrap.executeRustBinaryAction, Command.execute_rust_binary_action.
  destruct (unsupported (process_platform rt)); [repeat split|].
  rewrite !bind_readFileSync, Hfile.
  destruct (fs_readFileSync rt (join rt (dirname rt) "../Cargo.toml")) as [text|e] eqn:Hread;
    [|repeat split].
  rewrite !bind_tomlParse.
  destruct (toml_parse rt text) as [toml|e] eqn:Hparse; [|repeat split].
  specialize (Hname text toml eq_refl Hparse).
  destruct (bin toml) as [|[name] rest]; [discriminate Hname|].
  cbn [fmap option_fmap option_map head bin_name] in Hname. injection Hname as ->.
  rewrite bind_lift. cbn [bin_name].
  repeat first
    [ rewrite Hargs
    | rewrite bind_assoc
    | run_step
    | match goal with
      | |- context [match ?x with Ok _ => _ | Throw _ => _ end] => destruct x eqn:?
      | |- context [if ?b then _ else _] => destruct b eqn:?
      end ];
    repeat split.
Qed.

Lemma launchers_agree_witness :
  let getArgs : GetArguments := fun _ => Ok ["prepare"] in
  let a := action Sample.windows (ViaArguments getArgs) ∅ in
  let b := action Sample.windows (ViaCommand "prepare") ∅ in
  skipn 1 (trace a) = skipn 1 (trace b)
  /\ cache a = cache b
  /\ result a = result b.
Proof.
  apply (launchers_agree Sample.windows ∅ (fun _ => Ok ["prepare"]) "prepare").
  - reflexivity.
  - intros text toml _ [= <-]. reflexivity.
  - reflexivity.
Defined.

(** X12: a manifest that declares no binary stops the launcher that takes
    an argument builder right after the manifest read, with a [TypeError]
    that its entry point reports: no lookup, no download, no spawn.  The
    single-command launcher does not read the declared binaries and goes on
    to the cache lookup with the same manifest. *)
Theorem no_declared_binary (rt : Runtime) (c : Cache)
    (getArgs : GetArguments) (rustCommand : string) (text : string) (toml : Toml)
    (Hplatform : unsupported (process_platform rt) = false)
    (Hparse : toml_parse rt text = Ok toml)
    (Hbin : bin toml = []) :
  (fs_readFileSync rt (manifest_path rt (ViaArguments getArgs)) = Ok text ->
   trace (action rt (ViaArguments getArgs) c)
   = [ReadFile (manifest_path rt (ViaArguments getArgs))]
   /\ cache (action rt (ViaArguments getArgs) c) = c
   /\ (exists message,
         result (action rt (ViaArguments getArgs) c) = Throw (new_TypeError message)
         /\ trace (entry rt (ViaArguments getArgs) c)
            = [ReadFile (manifest_path rt (ViaArguments getArgs)); SetFailed message]))
  /\ (forall org,
        fs_readFileSync rt (manifest_path rt (ViaCommand rustCommand)) = Ok text ->
        githubOrgAndName rt (pkg_repository (package toml)) = Ok org ->
        In (Find org (pkg_version (package toml)))
           (trace (action rt (ViaCommand rustCommand) c))).
Proof.
  split.
  - intros Hread.
    assert (action rt (ViaArguments getArgs) c
            = {| trace := [ReadFile (manifest_path rt (ViaArguments getArgs))];
                 cache := c;
                 result := Throw (new_TypeError
                   "Cannot destructure property 'name' of 'toml.bin[0]' as it is undefined.") |})
      as Hrun.
    { cbn [action manifest_path] in *. unfold Bootstrap.executeRustBinaryAction.
      now rewrite Hplatform, bind_readFileSync, Hread, bind_tomlParse, Hparse, bind_lift, Hbin. }
    rewrite entry_run, Hrun. cbn [trace cache result new_TypeError].
    split; [reflexivity|]. split; [reflexivity|]. eexists. split; reflexivity.
  - intros org Hread Horg.
    cbn [action manifest_path] in *. unfold Command.execute_rust_binary_action.
    rewrite Hplatform, bind_readFileSync, Hread, bind_tomlParse, Hparse, bind_lift, Horg,
      bind_find.
    outcome. right. now left.
Qed.

Lemma no_declared_binary_witness :
  exists message,
    result (action Faulty.without_binary (ViaArguments EntryPoints.prepare) Sample.warm)
    = Throw (new_TypeError message)
    /\ trace (entry Faulty.without_binary (ViaArguments EntryPoints.prepare) Sample.warm)
       = [ReadFile "/work/.github/bootstrap/../../Cargo.toml"; SetFailed message].
Proof.
  destruct (no_declared_binary Faulty.without_binary Sample.warm EntryPoints.prepare
              "prepare" "[package]" Faulty.no_binary eq_refl eq_refl eq_refl) as [H _].
  destruct (H eq_refl) as (_ & _ & Hreport). exact Hreport.
Defined.

(** ** The whole invocation *)

(** The entry point is the launcher followed by the report of its
    result. *)
Lemma entry_report (rt : Runtime) (l : Launcher) (c : Cache) :
  entry rt l c
  = {| trace := trace (action rt l c) ++ report (result (action rt l c));
       cache := cache (action rt l c);
       result := Ok tt |}.
Proof.
  rewrite entry_run.
  destruct (action rt l c) as [t c' [[]|[]]]; cbn [trace cache result report];
    rewrite ?app_nil_r; reflexivity.
Qed.

(** X13: once steps 1 to 8 have gone through, the entry point's outcome is
    settled by the last steps alone: it completes normally, its events are
    the launcher's followed by the report of a rejection with an [Error]
    (nothing when the spawn succeeds), it spawns at most the one binary,
    and the cache holds the directory for the key whether the spawn, or
    the argument builder before it, failed or not. *)
Theorem resolved_invocation (rt : Runtime) (l : Launcher) (c : Cache) (toml : Toml)
    (org name dir : string)
    (Hresolved : resolved rt l c toml org name dir) :
  let o := entry rt l c in
  result o = Ok tt
  /\ trace o = trace (action rt l c) ++ report (launch_result rt l dir name)
  /\ List.filter is_set_failed (trace o) = report (launch_result rt l dir name)
  /\ List.filter is_exec (trace o) = launch rt l dir name
  /\ cache o !! (org, pkg_version (package toml)) = Some dir.
Proof.
  cbv zeta.
  assert (List.filter is_set_failed (report (launch_result rt l dir name))
          = report (launch_result rt l dir name)
          /\ List.filter is_exec (report (launch_result rt l dir name)) = []) as [Hrep Hnone].
  { destruct (launch_result rt l dir name) as [[]|[]]; now split. }
  assert (List.filter is_exec (launch rt l dir name) = launch rt l dir name
          /\ List.filter is_set_failed (launch rt l dir name) = []) as [Hexec Hquiet].
  { destruct l as [getArgs|rustCommand]; cbn [launch]; [|now split].
    destruct (getArgs _); now split. }
  rewrite entry_report.
  destruct Hresolved as [Hprep [Hhit | (Hmiss & dl & ex & Hfetch)]].
  - rewrite (hit_run rt l c toml org name dir Hprep Hhit). cbn [trace cache result].
    rewrite !List.filter_app, Hrep, Hnone, Hexec, Hquiet.
    cbn [List.filter is_set_failed is_exec app]. rewrite app_nil_r.
    split; [reflexivity|]. split; [reflexivity|]. split; [reflexivity|].
    split; [reflexivity|apply Hhit].
  - rewrite (miss_run rt l c toml org name dl ex dir Hprep Hmiss Hfetch).
    cbn [trace cache result].
    rewrite !List.filter_app, Hrep, Hnone, Hexec, Hquiet.
    cbn [List.filter is_set_failed is_exec app]. rewrite app_nil_r.
    split; [reflexivity|]. split; [reflexivity|]. split; [reflexivity|].
    split; [reflexivity|apply lookup_insert_eq].
Qed.

Lemma resolved_invocation_witness :
  let rt := Sample.runner "linux" Sample.inputs Sample.download_ok
              (Throw (ErrorObj "Error" "The process failed with exit code 2")) in
  let o := entry rt (ViaCommand "prepare") ∅ in
  result o = Ok tt
  /\ List.filter is_set_failed (trace o) = [SetFailed "The process failed with exit code 2"]
  /\ cache o !! ("acme/mycli", "1.2.3") = Some "/toolcache/acme/mycli/1.2.3/x64".
Proof.
  cbv zeta.
  destruct (resolved_invocation
              (Sample.runner "linux" Sample.inputs Sample.download_ok
                 (Throw (ErrorObj "Error" "The process failed with exit code 2")))
              (ViaCommand "prepare") ∅ Sample.manifest "acme/mycli" "mycli"
              "/toolcache/acme/mycli/1.2.3/x64") as (Hr & _ & Hf & _ & Hc).
  - split; [apply sample_prepared; reflexivity|].
    right. split; [reflexivity|].
    exists "/tmp/download", "/tmp/extract". repeat split; reflexivity.
  - split; [exact Hr|]. split; [exact Hf|exact Hc].
Defined.

(** X14: after a first invocation that fetched and registered the release,
    any number of further invocations of the entry point leave the cache
    as it is, and the invocation after them launches from the same
    directory without a download, an extraction or a registration. *)
Theorem repeated_invocations_stable (rt : Runtime) (l : Launcher) (c : Cache)
    (toml : Toml) (org name downloadPath extractPath dir : string) (n : nat)
    (Hprep : prepared rt l toml org name)
    (Hmiss : cache_miss c org (pkg_version (package toml)))
    (Hfetch : fetched rt org (pkg_version (package toml)) name downloadPath extractPath dir)
    (Hdir : Str.truthy dir = true) :
  let first := cache (entry rt l c) in
  let later := cache_after rt l n first in
  later = first
  /\ trace (action rt l later)
     = [ReadFile (manifest_path rt l); Find org (pkg_version (package toml))]
       ++ launch rt l dir name
  /\ count is_download (trace (action rt l later)) = 0
  /\ count is_extract (trace (action rt l later)) = 0
  /\ count is_cache_file (trace (action rt l later)) = 0.
Proof.
  cbv zeta.
  assert (forall c', cache (entry rt l c') = cache (action rt l c')) as Hentry.
  { intros c'. now rewrite entry_report. }
  rewrite Hentry,
    (miss_run rt l c toml org name downloadPath extractPath dir Hprep Hmiss Hfetch).
  cbn [cache].
  assert (cache_hit (<[(org, pkg_version (package toml)) := dir]> c)
            org (pkg_version (package toml)) dir) as Hhit.
  { split; [apply lookup_insert_eq|exact Hdir]. }
  assert (cache_after rt l n (<[(org, pkg_version (package toml)) := dir]> c)
          = <[(org, pkg_version (package toml)) := dir]> c) as ->.
  { induction n as [|n IH]; [reflexivity|].
    cbn [cache_after]. rewrite Hentry, (hit_run rt l _ toml org name dir Hprep Hhit).
    exact IH. }
  rewrite (hit_run rt l _ toml org name dir Hprep Hhit). cbn [trace].
  repeat split; count_events.
Qed.

Lemma repeated_invocations_stable_witness :
  let first := cache (entry Sample.linux (ViaCommand "prepare") ∅) in
  let later := cache_after Sample.linux (ViaCommand "prepare") 3 first in
  later = first
  /\ trace (action Sample.linux (ViaCommand "prepare") later)
     = [ReadFile "/work/.github/bootstrap/../Cargo.toml";
        Find "acme/mycli" "1.2.3";
        Exec "/toolcache/acme/mycli/1.2.3/x64/mycli" ["prepare"]]
  /\ count is_download (trace (action Sample.linux (ViaCommand "prepare") later)) = 0
  /\ count is_extract (trace (action Sample.linux (ViaCommand "prepare") later)) = 0
  /\ count is_cache_file (trace (action Sample.linux (ViaCommand "prepare") later)) = 0.
Proof.
  apply (repeated_invocations_stable Sample.linux (ViaCommand "prepare") ∅
           Sample.manifest "acme/mycli" "mycli" "/tmp/download" "/tmp/extract"
           "/toolcache/acme/mycli/1.2.3/x64" 3).
  - apply sample_prepared. reflexivity.
  - reflexivity.
  - repeat split; reflexivity.
  - reflexivity.
Defined.

(** X15: a manifest that cannot be read or parsed, or a repository URL
    without a path, ends the run of either launcher after the manifest
    read with that error: no cache lookup is made and the cache is left as
    it was. *)
Theorem manifest_failure_stops (rt : Runtime) (l : Launcher) (c : Cache) (e : Thrown)
    (Hplatform : unsupported (process_platform rt) = false) :
  let stopped := {| trace := [ReadFile (manifest_path rt l)]; cache := c;
                    result := Throw e |} in
  (fs_readFileSync rt (manifest_path rt l) = Throw e -> action rt l c = stopped)
  /\ (forall text,
        fs_readFileSync rt (manifest_path rt l) = Ok text ->
        toml_parse rt text = Throw e ->
        action rt l c = stopped)
  /\ (forall text toml name,
        fs_readFileSync rt (manifest_path rt l) = Ok text ->
        toml_parse rt text = Ok toml ->
        base_name l toml = Some name ->
        githubOrgAndName rt (pkg_repository (package toml)) = Throw e ->
        action rt l c = stopped).
Proof.
  cbv zeta.
  destruct l as [getArgs|rustCommand]; cbn [action manifest_path base_name];
    unfold Bootstrap.executeRustBinaryAction, Command.execute_rust_binary_action;
    rewrite Hplatform, bind_readFileSync.
  all: split; [intros ->; reflexivity|].
  all: split; [intros text -> Hparse; now rewrite bind_tomlParse, Hparse|].
  all: intros text toml name -> Hparse Hname Horg; rewrite bind_tomlParse, Hparse.
  - destruct (bin toml) as [|b rest]; [discriminate Hname|].
    now rewrite !bind_lift, Horg.
  - now rewrite bind_lift, Horg.
Qed.

Lemma manifest_failure_stops_witness :
  action Faulty.unreadable (ViaCommand "prepare") Sample.warm
  = {| trace := [ReadFile "/work/.github/bootstrap/../Cargo.toml"];
       cache := Sample.warm;
       result := Throw Faulty.no_such_file |}.
Proof.
  destruct (manifest_failure_stops Faulty.unreadable (ViaCommand "prepare") Sample.warm
              Faulty.no_such_file eq_refl) as [H _].
  apply H. reflexivity.
Defined.
